(** * Background-task tool adapters: fetch output and terminate

    A shallow embedding of the two tool adapters of the repository,
    [BashOutputInvocation]/[BashOutputTool] (fetch the buffered output of a
    background task, optionally filtered by a regular expression) and
    [KillShellInvocation]/[KillShellTool] (terminate a background task),
    together with the properties their specification states about them.

    The adapters talk to a background task manager and to the JavaScript
    runtime ([RegExp], template literals, [Array.prototype.join],
    [String.prototype.trim]).  Calls to the manager and to the [RegExp]
    constructor are effects: they are threaded through a small monad that
    carries the manager's state, records every call in order, and
    propagates exceptions the way [try]/[catch] does. *)

From Stdlib Require Import String Ascii List ZArith NArith Bool Lia DecimalString.
From stdpp Require Import gmap strings.
Import ListNotations.

Local Open Scope string_scope.

(** ** JavaScript values and primitives used by the adapters *)

Module Js.

(** A thrown value; only its [message] is ever read by the adapters. *)
Record JsError : Type := { message : string }.

(** The completion of a call: a normal return or a thrown exception. *)
Inductive Answer (A : Type) : Type :=
| Returns (a : A)
| Throws (e : JsError).
Arguments Returns {A} a.
Arguments Throws {A} e.

(** The line feed of ['\n']. *)
Definition nl : string := String (ascii_of_nat 10) EmptyString.

(** A Rocq character stands for a code unit below 256.  These are the
    code units [String.prototype.trim] strips in that range: TAB, LF, VT,
    FF, CR, SPACE and NO-BREAK SPACE. *)
Definition is_white_space (c : ascii) : bool :=
  let n := nat_of_ascii c in
  ((9 <=? n) && (n <=? 13) || (n =? 32) || (n =? 160))%nat.

Fixpoint trimStart (s : string) : string :=
  match s with
  | EmptyString => EmptyString
  | String c s' => if is_white_space c then trimStart s' else s
  end.

Fixpoint trimEnd (s : string) : string :=
  match s with
  | EmptyString => EmptyString
  | String c s' =>
      match trimEnd s' with
      | EmptyString => if is_white_space c then EmptyString else String c EmptyString
      | t => String c t
      end
  end.

(** [s.trim()] *)
Definition trim (s : string) : string := trimEnd (trimStart s).

(** A string property that may be missing: [None] is [undefined]. *)
Definition maybe_string := option string.

(** [ToBoolean] on [string | undefined]: [undefined] and [''] are falsy.
    The truthy case hands back the string itself. *)
Definition truthy (v : maybe_string) : option string :=
  match v with
  | Some EmptyString => None
  | Some s => Some s
  | None => None
  end.

Definition is_truthy (v : maybe_string) : bool :=
  match truthy v with Some _ => true | None => false end.

(** [ToBoolean] on [number | undefined]: [undefined] and [0] are falsy. *)
Definition truthy_number (v : option N) : option N :=
  match v with
  | Some 0%N => None
  | Some n => Some n
  | None => None
  end.

(** A value inside a template literal: [`${v}`]. *)
Definition tpl (v : maybe_string) : string :=
  match v with
  | Some s => s
  | None => "undefined"
  end.

(** A non-negative integer inside a template literal. *)
Definition tpl_nat (n : nat) : string := NilEmpty.string_of_uint (Nat.to_uint n).
Definition tpl_N (n : N) : string := NilEmpty.string_of_uint (N.to_uint n).

(** [lines.join(sep)] on an array of strings. *)
Definition join (sep : string) (lines : list string) : string :=
  String.concat sep lines.

(** [s.startsWith(p)] and [s.includes(p)], the second as a proposition. *)
Fixpoint startsWith (s p : string) {struct p} : bool :=
  match p, s with
  | EmptyString, _ => true
  | String _ _, EmptyString => false
  | String a p', String b s' => Ascii.eqb a b && startsWith s' p'
  end.
Definition includes (s p : string) : Prop :=
  exists before after, s = before +:+ p +:+ after.

(** The characters of a string, and the strings made of white space only
    (the empty one among them). *)
Fixpoint chars (s : string) : list ascii :=
  match s with
  | EmptyString => []
  | String c s' => c :: chars s'
  end.

Definition whitespace_only (s : string) : bool := forallb is_white_space (chars s).

(** An identifier the validators refuse: missing, empty, or made of white
    space only. *)
Definition blank (v : maybe_string) : Prop :=
  v = None \/ v = Some "" \/ exists s, v = Some s /\ whitespace_only s = true.

End Js.
Import Js.

(** ** The regular-expression engine

    The runtime's [RegExp], taken as a parameter.  [new RegExp(pattern)]
    either returns a compiled expression or throws a [SyntaxError];
    [regex.test(line)] on an expression without flags is a pure predicate.
    The adapters are verified against any engine; the one law they rely on
    is that the empty pattern compiles. *)

Class RegExpEngine : Type := {
  RegExp : Type;
  newRegExp : string -> Answer RegExp;
  test : RegExp -> string -> bool;
  newRegExp_empty : exists r, newRegExp "" = Returns r
}.

(** ** The background task manager *)

(** Modelled from the spec: the [Task] record of
    [services/backgroundTaskManager], which is not among the sources.  The
    adapters read [status], [pid] and [command]; [status] is a string that
    the code compares with ['running'], [pid] a number or [undefined]. *)
Record Task : Type := {
  task_id : string;
  task_command : string;
  task_pid : option N;
  task_status : string;
  task_exitCode : option Z;
  task_output : list string
}.

(** Modelled from the spec: the interface of the background task manager
    ([services/backgroundTaskManager], not among the sources), taken as a
    parameter.  The argument is the identifier as passed at run time
    ([undefined] when the property is missing).  As the spec has it,
    [getTask] is a pure lookup and [getOutput] reads the task's buffer, so
    both only read the manager's state; [killTask] may change it, and its
    promise may reject, which the caller sees as a throw. *)
Class TaskManager (M : Type) : Type := {
  getTask : M -> maybe_string -> option Task;
  getOutput : M -> maybe_string -> Z -> option (list string);
  killTask : M -> maybe_string -> Answer bool * M
}.

(** [getErrorMessage] of [utils/errors], which is not among the sources:
    taken as a parameter. *)
Class ErrorUtils : Type := {
  getErrorMessage : JsError -> string
}.

(** ** Effects: manager state, call log, exceptions *)

Inductive Event : Type :=
| CallGetTask (id : maybe_string)
| CallGetOutput (id : maybe_string) (offset : Z)
| CallKillTask (id : maybe_string)
| CallNewRegExp (pattern : string).

(** What a run leaves behind: how it completed, the manager's state
    afterwards, and the calls it made, oldest first. *)
Record Run (M A : Type) : Type := {
  outcome : Answer A;
  manager : M;
  calls : list Event
}.
Arguments outcome {M A} r.
Arguments manager {M A} r.
Arguments calls {M A} r.

Definition Eff (M A : Type) : Type := M -> Run M A.

Definition ret {M A : Type} (a : A) : Eff M A :=
  fun m => {| outcome := Returns a; manager := m; calls := [] |}.

Definition bind {M A B : Type} (x : Eff M A) (k : A -> Eff M B) : Eff M B :=
  fun m =>
    let r := x m in
    match outcome r with
    | Returns a =>
        let r' := k a (manager r) in
        {| outcome := outcome r'; manager := manager r'; calls := calls r ++ calls r' |}
    | Throws e => {| outcome := Throws e; manager := manager r; calls := calls r |}
    end.

(** [try { body } catch (error) { handler }] *)
Definition try_catch {M A : Type} (body : Eff M A) (handler : JsError -> Eff M A) : Eff M A :=
  fun m =>
    let r := body m in
    match outcome r with
    | Returns a => r
    | Throws e =>
        let r' := handler e (manager r) in
        {| outcome := outcome r'; manager := manager r'; calls := calls r ++ calls r' |}
    end.

Declare Scope eff_scope.
Delimit Scope eff_scope with eff.
Notation "x <- c ;; k" := (bind c (fun x => k))
  (at level 100, c at next level, right associativity) : eff_scope.

Section Calls.
Context {M : Type} {TM : TaskManager M} {RE : RegExpEngine}.

(** [taskManager.getTask(id)] *)
Definition call_getTask (id : maybe_string) : Eff M (option Task) :=
  fun m => {| outcome := Returns (getTask m id); manager := m; calls := [CallGetTask id] |}.

(** [taskManager.getOutput(id, offset)] *)
Definition call_getOutput (id : maybe_string) (offset : Z) : Eff M (option (list string)) :=
  fun m => {| outcome := Returns (getOutput m id offset); manager := m;
              calls := [CallGetOutput id offset] |}.

(** [await taskManager.killTask(id)]: a rejected promise is a throw. *)
Definition call_killTask (id : maybe_string) : Eff M bool :=
  fun m => let '(a, m') := killTask m id in
           {| outcome := a; manager := m'; calls := [CallKillTask id] |}.

(** [new RegExp(pattern)] *)
Definition new_RegExp (pattern : string) : Eff M RegExp :=
  fun m => {| outcome := newRegExp pattern; manager := m; calls := [CallNewRegExp pattern] |}.

End Calls.

(** ** Tool results *)

(** [ToolResult]: the verbose form for the model and the compact form for
    display. *)
Record ToolResult : Type := {
  llmContent : string;
  returnDisplay : string
}.

(** [ToolExecuteConfirmationDetails]; its [onConfirm] callback does
    nothing and is left out.  [getConfirmationDetails] answers [false]
    ([None]) when no confirmation is requested. *)
Record ToolExecuteConfirmationDetails : Type := {
  type : string;
  title : string;
  command : string;
  rootCommand : string
}.

(** ** bash-output: [BashOutputInvocation] and [BashOutputTool] *)

Module BashOutput.

Record BashOutputParams : Type := {
  bash_id : maybe_string;
  filter : maybe_string
}.

Section Invocation.
Context {M : Type} {TM : TaskManager M} {RE : RegExpEngine}.
Local Open Scope eff_scope.

(** [getDescription] *)
Definition getDescription (params : BashOutputParams) : string :=
  let description := "Get output from background task: " +:+ tpl (bash_id params) in
  match truthy (filter params) with
  | Some f => description +:+ " (filter: " +:+ f +:+ ")"
  | None => description
  end.

(** [getConfirmationDetails]: a read-only operation asks for none. *)
Definition getConfirmationDetails (params : BashOutputParams)
  : Eff M (option ToolExecuteConfirmationDetails) :=
  ret None.

(** The header lines of the report (source lines 80 to 87). *)
Definition header (params : BashOutputParams) (task : Task)
    (allOutput filteredOutput : list string) : list string :=
  let statusText := "Status: " +:+ task_status task in
  let pidText :=
    match truthy_number (task_pid task) with
    | Some pid => "PID: " +:+ tpl_N pid
    | None => ""
    end in
  let lines := [statusText] in
  let lines := if is_truthy (Some pidText) then (lines ++ [pidText])%list else lines in
  let lines := (lines ++ ["Lines buffered: " +:+ tpl_nat (length allOutput)])%list in
  let lines :=
    if is_truthy (filter params)
    then (lines ++ ["Matched lines: " +:+ tpl_nat (length filteredOutput)])%list
    else lines in
  lines.

(** The formatted result (source lines 78 to 94). *)
Definition format (params : BashOutputParams) (task : Task)
    (allOutput filteredOutput : list string) : ToolResult :=
  let outputText := join nl filteredOutput in
  let lines := header params task allOutput filteredOutput in
  let llmContent := join nl [join nl lines; ""; "Output:"; outputText] in
  {| llmContent := llmContent;
     returnDisplay := join " | " lines +:+ nl +:+ outputText |}.

(** The filter step (source lines 64 to 76): the filtered lines, or the
    result the [catch] clause returns early. *)
Definition apply_filter (params : BashOutputParams) (allOutput : list string)
  : Eff M (list string + ToolResult) :=
  match truthy (filter params) with
  | Some f =>
      try_catch
        (regex <- new_RegExp f ;;
         ret (inl (List.filter (fun line => test regex line) allOutput)))
        (fun error =>
           ret (inr {| llmContent := "Invalid filter regex: " +:+ f +:+ ". Error: "
                                      +:+ message error;
                       returnDisplay := "Error: Invalid filter pattern." |}))
  | None => ret (inl allOutput)
  end.

(** [execute] *)
Definition execute (params : BashOutputParams) : Eff M ToolResult :=
  task <- call_getTask (bash_id params) ;;
  match task with
  | None =>
      ret {| llmContent := "Background task not found: " +:+ tpl (bash_id params)
                           +:+ ". Task may have been cleaned up.";
             returnDisplay := "Error: Task " +:+ tpl (bash_id params) +:+ " not found." |}
  | Some task =>
      allOutput <- call_getOutput (bash_id params) 0 ;;
      match allOutput with
      | None =>
          ret {| llmContent := "Failed to retrieve output for task "
                               +:+ tpl (bash_id params) +:+ ".";
                 returnDisplay := "Error: Failed to retrieve output." |}
      | Some allOutput =>
          filtered <- apply_filter params allOutput ;;
          match filtered with
          | inr early => ret early
          | inl filteredOutput => ret (format params task allOutput filteredOutput)
          end
      end
  end.

(** [BashOutputTool.validateToolParamValues]: [None] is [null]. *)
Definition validateToolParamValues (params : BashOutputParams) : option string :=
  let rejected :=
    match truthy (bash_id params) with
    | None => true
    | Some id => (String.length (trim id) =? 0)%nat
    end in
  if rejected
  then Some "bash_id is required and cannot be empty."
  else
    match truthy (filter params) with
    | Some f =>
        match newRegExp f with
        | Returns _ => None
        | Throws error => Some ("Invalid regex pattern in filter: " +:+ message error)
        end
    | None => None
    end.

End Invocation.
End BashOutput.

(** ** kill-shell: [KillShellInvocation] and [KillShellTool] *)

Module KillShell.

Record KillShellParams : Type := {
  shell_id : maybe_string
}.

Section Invocation.
Context {M : Type} {TM : TaskManager M} {EU : ErrorUtils}.
Local Open Scope eff_scope.

(** [getDescription] *)
Definition getDescription (params : KillShellParams) : string :=
  "Terminate background task: " +:+ tpl (shell_id params).

(** [getConfirmationDetails] *)
Definition getConfirmationDetails (params : KillShellParams)
  : Eff M (option ToolExecuteConfirmationDetails) :=
  task <- call_getTask (shell_id params) ;;
  match task with
  | None => ret None
  | Some task =>
      let confirmationDetails :=
        {| type := "exec";
           title := "Confirm Terminate Background Task";
           command := task_command task;
           rootCommand := "kill" |} in
      ret (Some confirmationDetails)
  end.

(** [execute] *)
Definition execute (params : KillShellParams) : Eff M ToolResult :=
  task <- call_getTask (shell_id params) ;;
  match task with
  | None =>
      ret {| llmContent := "Background task not found: " +:+ tpl (shell_id params)
                           +:+ ". Task may have already completed or been cleaned up.";
             returnDisplay := "Error: Task " +:+ tpl (shell_id params) +:+ " not found." |}
  | Some task =>
      if negb (String.eqb (task_status task) "running")
      then
        ret {| llmContent := "Task " +:+ tpl (shell_id params) +:+ " is not running (status: "
                             +:+ task_status task +:+ "). No need to kill.";
               returnDisplay := "Task already " +:+ task_status task +:+ "." |}
      else
        try_catch
          (killed <- call_killTask (shell_id params) ;;
           if negb killed
           then
             ret {| llmContent := "Failed to kill task " +:+ tpl (shell_id params)
                                  +:+ ". Task may have already terminated.";
                    returnDisplay := "Failed to kill task." |}
           else
             ret {| llmContent := "Successfully terminated background task "
                                  +:+ tpl (shell_id params) +:+ " (command: "
                                  +:+ task_command task +:+ ")";
                    returnDisplay := "Task " +:+ tpl (shell_id params) +:+ " terminated." |})
          (fun error =>
             let errorMessage := getErrorMessage error in
             ret {| llmContent := "Error terminating background task "
                                  +:+ tpl (shell_id params) +:+ ": " +:+ errorMessage;
                    returnDisplay := "Error: " +:+ errorMessage |})
  end.

(** [KillShellTool.validateToolParamValues]: [None] is [null]. *)
Definition validateToolParamValues (params : KillShellParams) : option string :=
  let rejected :=
    match truthy (shell_id params) with
    | None => true
    | Some id => (String.length (trim id) =? 0)%nat
    end in
  if rejected
  then Some "shell_id is required and cannot be empty."
  else None.

End Invocation.
End KillShell.

(** ** A reference task manager *)

Module Reference.

(** Modelled from the spec: the background task manager of
    [services/backgroundTaskManager], which is not among the sources.  The
    registry maps identifiers to tasks; [live] holds the process
    identifiers that still run.  [getTask] is a lookup, [getOutput] reads
    the task's buffer from an offset (a negative offset reads from the
    start, an offset past the end reads nothing, an unknown identifier is
    not found), and [killTask] answers [true] exactly when it signalled a
    live process of a running task, which then becomes [killed]. *)
Record State : Type := {
  registry : gmap string Task;
  live : gset N
}.

Definition lookup_task (s : State) (id : maybe_string) : option Task :=
  match id with
  | Some k => registry s !! k
  | None => None
  end.

Definition read_output (s : State) (id : maybe_string) (offset : Z) : option (list string) :=
  match lookup_task s id with
  | Some t => Some (drop (Z.to_nat offset) (task_output t))
  | None => None
  end.

Definition set_status (st : string) (t : Task) : Task :=
  {| task_id := task_id t; task_command := task_command t; task_pid := task_pid t;
     task_status := st; task_exitCode := task_exitCode t; task_output := task_output t |}.

Definition kill_task (s : State) (id : maybe_string) : Answer bool * State :=
  match id, lookup_task s id with
  | Some k, Some t =>
      match task_pid t with
      | Some p =>
          if String.eqb (task_status t) "running" && bool_decide (p ∈ live s)
          then (Returns true,
                {| registry := <[k := set_status "killed" t]> (registry s);
                   live := live s ∖ {[p]} |})
          else (Returns false, s)
      | None => (Returns false, s)
      end
  | _, _ => (Returns false, s)
  end.

#[export] Instance task_manager : TaskManager State := {
  getTask := lookup_task;
  getOutput := read_output;
  killTask := kill_task
}.

(** The reading of [getErrorMessage] used in the examples: the message of
    the thrown error. *)
#[export] Instance errors : ErrorUtils := {
  getErrorMessage := message
}.

End Reference.

(** ** A reference regular-expression engine

    An engine for the fragment of the pattern language made of literal
    characters, [.], a postfix [*] on a character or [.], and the
    assertions [^] and [$].  It rejects a [*] with nothing to repeat and an
    unterminated group as the runtime does; the remaining syntax (groups,
    classes, alternation, escapes, other quantifiers) is outside the
    fragment and rejected as unsupported. *)

Module BasicRegExp.

Inductive Atom : Type :=
| AnyChar
| Char (c : ascii).

Inductive Item : Type :=
| Bol
| Eol
| One (a : Atom)
| Star (a : Atom).

Inductive SyntaxError : Type :=
| NothingToRepeat
| UnterminatedGroup
| Unsupported.

Definition reason (e : SyntaxError) : string :=
  match e with
  | NothingToRepeat => "Nothing to repeat"
  | UnterminatedGroup => "Unterminated group"
  | Unsupported => "outside the supported fragment"
  end.

Fixpoint has_char (c : ascii) (s : string) : bool :=
  match s with
  | EmptyString => false
  | String x s' => Ascii.eqb x c || has_char c s'
  end.

(** The items read so far are kept in reverse. *)
Fixpoint parse (pattern : string) (acc : list Item) : list Item + SyntaxError :=
  match pattern with
  | EmptyString => inl (rev acc)
  | String c rest =>
      if Ascii.eqb c "*" then
        match acc with
        | One a :: acc' => parse rest (Star a :: acc')
        | _ => inr NothingToRepeat
        end
      else if Ascii.eqb c "^" then parse rest (Bol :: acc)
      else if Ascii.eqb c "$" then parse rest (Eol :: acc)
      else if Ascii.eqb c "." then parse rest (One AnyChar :: acc)
      else if Ascii.eqb c "(" then
        if has_char ")" rest then inr Unsupported else inr UnterminatedGroup
      else if has_char c ")[]{}|+?\" then inr Unsupported
      else parse rest (One (Char c) :: acc)
  end.

Definition compile (pattern : string) : Answer (list Item) :=
  match parse pattern [] with
  | inl items => Returns items
  | inr e =>
      Throws {| message := "Invalid regular expression: /" +:+ pattern +:+ "/: "
                           +:+ reason e |}
  end.

(** [.] matches any character but a line terminator; a literal matches
    itself, case included. *)
Definition atom_matches (a : Atom) (c : ascii) : bool :=
  match a with
  | AnyChar => negb (Ascii.eqb c (ascii_of_nat 10) || Ascii.eqb c (ascii_of_nat 13))
  | Char x => Ascii.eqb x c
  end.

(** Does the pattern match a prefix of [text]?  [atStart] tells whether
    [text] is the whole input. *)
Fixpoint matchHere (re : list Item) : bool -> string -> bool :=
  match re with
  | [] => fun _ _ => true
  | Bol :: re' => fun atStart text => atStart && matchHere re' atStart text
  | Eol :: re' => fun atStart text =>
      match text with
      | EmptyString => matchHere re' atStart text
      | String _ _ => false
      end
  | One a :: re' => fun _ text =>
      match text with
      | EmptyString => false
      | String c t => atom_matches a c && matchHere re' false t
      end
  | Star a :: re' =>
      fix star (atStart : bool) (text : string) : bool :=
        matchHere re' atStart text
        || match text with
           | EmptyString => false
           | String c t => atom_matches a c && star false t
           end
  end.

(** [regex.test(text)]: a match may start anywhere. *)
Fixpoint search (re : list Item) (atStart : bool) (text : string) : bool :=
  matchHere re atStart text
  || match text with
     | EmptyString => false
     | String _ t => search re false t
     end.

#[export] Instance engine : RegExpEngine := {
  RegExp := list Item;
  newRegExp := compile;
  test := fun re text => search re true text;
  newRegExp_empty := ex_intro _ [] eq_refl
}.

End BasicRegExp.

(** ** The report in the specification's words

    The structured report of fetch-output: a status line, a PID line, the
    number of buffered lines, the number of matched lines, then the output
    joined by newlines.  [report_lines] spells out when the two optional
    lines are present; the theorems below compare it with [BashOutput.header]
    and [BashOutput.format]. *)

Definition pid_line (task : Task) : list string :=
  match task_pid task with
  | Some p => if (p =? 0)%N then [] else ["PID: " +:+ tpl_N p]
  | None => []
  end.

Definition matched_line (filter : maybe_string) (shown : list string) : list string :=
  match filter with
  | Some f => if String.eqb f "" then [] else ["Matched lines: " +:+ tpl_nat (length shown)]
  | None => []
  end.

Definition report_lines (task : Task) (filter : maybe_string) (buffered shown : list string)
  : list string :=
  (["Status: " +:+ task_status task] ++ pid_line task
   ++ ["Lines buffered: " +:+ tpl_nat (length buffered)] ++ matched_line filter shown)%list.

Definition report (lines shown : list string) : ToolResult :=
  {| llmContent := join nl [join nl lines; ""; "Output:"; join nl shown];
     returnDisplay := join " | " lines +:+ nl +:+ join nl shown |}.

(** ** Example states *)

Module Examples.

Definition dev_server : Task :=
  {| task_id := "bg_1"; task_command := "npm run dev"; task_pid := Some 4242%N;
     task_status := "running"; task_exitCode := None;
     task_output := ["alpha"; "beta"; "gamma"] |}.

Definition finished_build : Task :=
  {| task_id := "bg_2"; task_command := "make all"; task_pid := Some 4243%N;
     task_status := "completed"; task_exitCode := Some 0%Z;
     task_output := ["cc main.c"; "ld main"] |}.

(** A running task whose process has already gone: the kill finds nothing
    to signal. *)
Definition vanished : Task :=
  {| task_id := "bg_4"; task_command := "true"; task_pid := Some 4245%N;
     task_status := "running"; task_exitCode := None; task_output := [] |}.

Definition state : Reference.State :=
  {| Reference.registry :=
       <["bg_1" := dev_server]> (<["bg_2" := finished_build]>
         (<["bg_4" := vanished]> ∅));
     Reference.live := {[ 4242%N ]} |}.

(** The two operations run on [state] with the reference engine. *)
Definition fetch (id filter : maybe_string) : Run Reference.State ToolResult :=
  BashOutput.execute (TM := Reference.task_manager) (RE := BasicRegExp.engine)
    {| BashOutput.bash_id := id; BashOutput.filter := filter |} state.

Definition terminate (id : maybe_string) : Run Reference.State ToolResult :=
  KillShell.execute (TM := Reference.task_manager) (EU := Reference.errors)
    {| KillShell.shell_id := id |} state.

End Examples.

(** ** A failing manager

    A test double for the failure paths: every task exists and runs, no
    buffer can be read, and every kill is rejected with an error. *)

Module Stub.

Definition rejection : JsError := {| message := "kill EPERM" |}.

#[export] Instance failing_manager : TaskManager unit := {
  getTask := fun _ _ => Some Examples.dev_server;
  getOutput := fun _ _ _ => None;
  killTask := fun m _ => (Throws rejection, m)
}.

End Stub.

(** * Properties *)

(** ** White space and [trim] *)

Lemma trimEnd_empty (s : string) :
  trimEnd s = "" <-> whitespace_only s = true.
Proof.
  unfold whitespace_only.
  induction s as [|c s IH]; cbn [trimEnd chars forallb].
  - split; reflexivity.
  - rewrite andb_true_iff, <- IH.
    destruct (trimEnd s) eqn:Et; destruct (is_white_space c);
      intuition congruence.
Qed.

Lemma whitespace_only_trimStart (s : string) :
  whitespace_only (trimStart s) = whitespace_only s.
Proof.
  unfold whitespace_only.
  induction s as [|c s IH]; cbn [trimStart].
  - reflexivity.
  - destruct (is_white_space c) eqn:Ec.
    + rewrite IH. cbn [chars forallb]. rewrite Ec. reflexivity.
    + reflexivity.
Qed.

Lemma trim_empty (s : string) :
  trim s = "" <-> whitespace_only s = true.
Proof.
  unfold trim. rewrite trimEnd_empty, whitespace_only_trimStart. reflexivity.
Qed.

Lemma length_zero_empty (s : string) :
  (String.length s =? 0)%nat = true <-> s = "".
Proof.
  destruct s; cbn; split; intros H; try reflexivity; discriminate.
Qed.

(** The test both validators run on the identifier:
    [!id || id.trim().length === 0]. *)
Lemma rejected_iff_blank (v : maybe_string) :
  match truthy v with
  | None => true
  | Some id => (String.length (trim id) =? 0)%nat
  end = true <-> blank v.
Proof.
  unfold blank. destruct v as [[|c s]|]; cbn [truthy].
  - split; [intros _; right; left; reflexivity | reflexivity].
  - rewrite length_zero_empty, trim_empty. split.
    + intros H. right; right. eexists; split; [reflexivity | exact H].
    + intros [H | [H | (s' & H & Hs)]]; try discriminate.
      injection H as <-. exact Hs.
  - split; [intros _; left; reflexivity | reflexivity].
Qed.

(** ** Joining and prefixes *)

Lemma append_assoc (a b c : string) : (a +:+ b) +:+ c = a +:+ (b +:+ c).
Proof.
  induction a as [|x a IH]; [reflexivity|].
  change (String x ((a +:+ b) +:+ c) = String x (a +:+ (b +:+ c))).
  f_equal. exact IH.
Qed.

Lemma append_empty_r (a : string) : a +:+ "" = a.
Proof.
  induction a as [|x a IH]; [reflexivity|].
  change (String x (a +:+ "") = String x a). f_equal. exact IH.
Qed.

(** A joined array starts with its first element. *)
Lemma join_cons (sep x : string) (rest : list string) :
  exists tail, join sep (x :: rest) = x +:+ tail.
Proof.
  destruct rest as [|y rest].
  - exists "". cbn. rewrite append_empty_r. reflexivity.
  - eexists. cbn. reflexivity.
Qed.

(** Both forms of a report start with its first line. *)
Lemma report_starts_with_first (x : string) (rest shown : list string) :
  exists t1 t2,
    llmContent (report (x :: rest) shown) = x +:+ t1
    /\ returnDisplay (report (x :: rest) shown) = x +:+ t2.
Proof.
  destruct (join_cons nl x rest) as [t1 H1].
  destruct (join_cons " | " x rest) as [t2 H2].
  exists (t1 +:+ nl +:+ join nl [""; "Output:"; join nl shown]), (t2 +:+ nl +:+ join nl shown).
  unfold report. cbn [llmContent returnDisplay]. rewrite H2, append_assoc. split; [|reflexivity].
  change (join nl [join nl (x :: rest); ""; "Output:"; join nl shown])
    with (join nl (x :: rest) +:+ nl +:+ join nl [""; "Output:"; join nl shown]).
  rewrite H1, append_assoc. reflexivity.
Qed.

(** Hence with the status line. *)
Lemma report_starts_with_status (task : Task) (filter : maybe_string) (buffered shown : list string) :
  exists t1 t2,
    llmContent (report (report_lines task filter buffered shown) shown) = "Status: " +:+ t1
    /\ returnDisplay (report (report_lines task filter buffered shown) shown)
       = "Status: " +:+ t2.
Proof.
  destruct (report_starts_with_first ("Status: " +:+ task_status task)
              (pid_line task ++ ["Lines buffered: " +:+ tpl_nat (length buffered)]
               ++ matched_line filter shown) shown) as (t1 & t2 & H1 & H2).
  exists (task_status task +:+ t1), (task_status task +:+ t2).
  rewrite <- !append_assoc. split; assumption.
Qed.

(** ** The runs of fetch-output, branch by branch *)

Section FetchOutput.
Context {M : Type} {TM : TaskManager M} {RE : RegExpEngine}.

Lemma header_report_lines (params : BashOutput.BashOutputParams) (task : Task)
    (buffered shown : list string) :
  BashOutput.header params task buffered shown
  = report_lines task (BashOutput.filter params) buffered shown.
Proof.
  unfold BashOutput.header, report_lines, pid_line, matched_line.
  destruct (task_pid task) as [[|p]|]; destruct (BashOutput.filter params) as [[|c f]|];
    reflexivity.
Qed.

Lemma format_report (params : BashOutput.BashOutputParams) (task : Task)
    (buffered shown : list string) :
  BashOutput.format params task buffered shown
  = report (report_lines task (BashOutput.filter params) buffered shown) shown.
Proof.
  unfold BashOutput.format. rewrite header_report_lines. reflexivity.
Qed.

(** [execute] read as one case analysis on what the manager and the
    engine answer. *)
Lemma fetch_output_runs (params : BashOutput.BashOutputParams) (m : M) :
  let id := BashOutput.bash_id params in
  BashOutput.execute params m =
  match getTask m id with
  | None =>
      {| outcome := Returns
           {| llmContent := "Background task not found: " +:+ tpl id
                            +:+ ". Task may have been cleaned up.";
              returnDisplay := "Error: Task " +:+ tpl id +:+ " not found." |};
         manager := m; calls := [CallGetTask id] |}
  | Some task =>
      match getOutput m id 0 with
      | None =>
          {| outcome := Returns
               {| llmContent := "Failed to retrieve output for task " +:+ tpl id +:+ ".";
                  returnDisplay := "Error: Failed to retrieve output." |};
             manager := m; calls := [CallGetTask id; CallGetOutput id 0] |}
      | Some buffered =>
          match truthy (BashOutput.filter params) with
          | None =>
              {| outcome := Returns (BashOutput.format params task buffered buffered);
                 manager := m; calls := [CallGetTask id; CallGetOutput id 0] |}
          | Some f =>
              match newRegExp f with
              | Returns regex =>
                  {| outcome := Returns (BashOutput.format params task buffered
                                           (List.filter (test regex) buffered));
                     manager := m;
                     calls := [CallGetTask id; CallGetOutput id 0; CallNewRegExp f] |}
              | Throws error =>
                  {| outcome := Returns
                       {| llmContent := "Invalid filter regex: " +:+ f +:+ ". Error: "
                                        +:+ message error;
                          returnDisplay := "Error: Invalid filter pattern." |};
                     manager := m;
                     calls := [CallGetTask id; CallGetOutput id 0; CallNewRegExp f] |}
              end
          end
      end
  end.
Proof.
  cbv zeta. unfold BashOutput.execute, BashOutput.apply_filter, bind, call_getTask,
    call_getOutput. cbn [outcome manager calls].
  destruct (getTask m (BashOutput.bash_id params)) as [task|]; [|reflexivity].
  cbn [outcome manager calls ret].
  destruct (getOutput m (BashOutput.bash_id params) 0) as [buffered|]; [|reflexivity].
  destruct (truthy (BashOutput.filter params)) as [f|]; [|reflexivity].
  unfold try_catch, bind, new_RegExp. cbn [outcome manager calls].
  destruct (newRegExp f) as [regex|error]; reflexivity.
Qed.

End FetchOutput.

(** ** Fetch-output: what the specification claims *)

Section FetchOutputClaims.
Context {M : Type} {TM : TaskManager M} {RE : RegExpEngine}.

(** Fetch-output never issues a [killTask] and leaves the manager as it
    found it, whatever it is asked. *)
Lemma fetch_output_reads_only (params : BashOutput.BashOutputParams) (m : M) :
  manager (BashOutput.execute params m) = m
  /\ forall id, ~ In (CallKillTask id) (calls (BashOutput.execute params m)).
Proof.
  pose proof (fetch_output_runs params m) as H. cbv zeta in H. rewrite H.
  destruct (getTask m _); [destruct (getOutput m _ _);
    [destruct (truthy _); [destruct (newRegExp _)|]|]|];
    cbn [manager calls]; (split; [reflexivity|]); intros id Hin; cbn in Hin;
    intuition discriminate.
Qed.

(** C1, as amended.  When a non-empty filter fails to compile, [execute]
    on a task that is found and whose output is retrieved returns the
    result naming the invalid pattern, but only after the output has been
    read: its calls are [getTask], [getOutput(id, 0)], [new RegExp(filter)],
    in this order.  No [killTask] is issued and the manager's state is
    unchanged.  Ahead of any invocation, [validateToolParamValues] rejects
    such a filter (for a non-blank [bash_id]) without calling the manager. *)
Theorem invalid_filter_reported_after_output_read
    (params : BashOutput.BashOutputParams) (m : M) (f : string) (error : JsError) :
  truthy (BashOutput.filter params) = Some f ->
  newRegExp f = Throws error ->
  (forall task buffered,
      getTask m (BashOutput.bash_id params) = Some task ->
      getOutput m (BashOutput.bash_id params) 0 = Some buffered ->
      BashOutput.execute params m =
      {| outcome := Returns
           {| llmContent := "Invalid filter regex: " +:+ f +:+ ". Error: " +:+ message error;
              returnDisplay := "Error: Invalid filter pattern." |};
         manager := m;
         calls := [CallGetTask (BashOutput.bash_id params);
                   CallGetOutput (BashOutput.bash_id params) 0;
                   CallNewRegExp f] |})
  /\ manager (BashOutput.execute params m) = m
  /\ (forall id, ~ In (CallKillTask id) (calls (BashOutput.execute params m)))
  /\ (~ blank (BashOutput.bash_id params) ->
      BashOutput.validateToolParamValues params
      = Some ("Invalid regex pattern in filter: " +:+ message error)).
Proof.
  intros Hf He. split; [|split; [|split]].
  - intros task buffered Ht Ho.
    pose proof (fetch_output_runs params m) as H. cbv zeta in H.
    rewrite H, Ht, Ho, Hf, He. reflexivity.
  - apply fetch_output_reads_only.
  - apply fetch_output_reads_only.
  - intros Hnb. unfold BashOutput.validateToolParamValues.
    destruct (match truthy (BashOutput.bash_id params) with
              | Some id => (String.length (trim id) =? 0)%nat
              | None => true
              end) eqn:Hr.
    + exfalso. apply Hnb. apply rejected_iff_blank. exact Hr.
    + rewrite Hf, He. reflexivity.
Qed.

(** The run with a non-empty filter that compiles: the output shown is
    [List.filter (test regex) buffered], the lines of the buffer that
    match, in their order; the report counts both lists. *)
Lemma filtered_run
    (params : BashOutput.BashOutputParams) (m : M) (task : Task)
    (buffered : list string) (f : string) (regex : RegExp) :
  getTask m (BashOutput.bash_id params) = Some task ->
  getOutput m (BashOutput.bash_id params) 0 = Some buffered ->
  BashOutput.filter params = Some f ->
  f <> "" ->
  newRegExp f = Returns regex ->
  let shown := List.filter (test regex) buffered in
  BashOutput.execute params m =
  {| outcome := Returns
       (report (["Status: " +:+ task_status task] ++ pid_line task
                ++ ["Lines buffered: " +:+ tpl_nat (length buffered);
                    "Matched lines: " +:+ tpl_nat (length shown)])
               shown);
     manager := m;
     calls := [CallGetTask (BashOutput.bash_id params);
               CallGetOutput (BashOutput.bash_id params) 0;
               CallNewRegExp f] |}
  /\ (forall line, In line shown <-> In line buffered /\ test regex line = true)
  /\ shown `sublist_of` buffered.
Proof.
  intros Ht Ho Hf Hne He shown.
  pose proof (fetch_output_runs params m) as H. cbv zeta in H.
  assert (Htr : truthy (BashOutput.filter params) = Some f).
  { rewrite Hf. destruct f; [congruence | reflexivity]. }
  split; [|split].
  - rewrite H, Ht, Ho, Htr, He, format_report. unfold report_lines, matched_line.
    rewrite Hf. destruct f; [congruence|]. reflexivity.
  - intros line. apply filter_In.
  - subst shown. clear. induction buffered as [|x l IH]; cbn.
    + constructor.
    + destruct (test regex x); [apply sublist_skip | apply sublist_cons]; exact IH.
Qed.


(** The filter step leaves [shown]: the buffer itself when the filter is
    missing or empty, its matching lines when the filter compiles. *)
Lemma successful_run (params : BashOutput.BashOutputParams) (m : M) (task : Task)
    (buffered shown : list string) :
  getTask m (BashOutput.bash_id params) = Some task ->
  getOutput m (BashOutput.bash_id params) 0 = Some buffered ->
  (truthy (BashOutput.filter params) = None /\ shown = buffered)
  \/ (exists f regex, truthy (BashOutput.filter params) = Some f
                      /\ newRegExp f = Returns regex
                      /\ shown = List.filter (test regex) buffered) ->
  outcome (BashOutput.execute params m)
  = Returns (report (report_lines task (BashOutput.filter params) buffered shown) shown).
Proof.
  intros Ht Ho Hs.
  pose proof (fetch_output_runs params m) as H. cbv zeta in H. rewrite H, Ht, Ho.
  destruct Hs as [[Hf ->] | (f & regex & Hf & He & ->)]; rewrite Hf.
  - cbn [outcome]. rewrite format_report. reflexivity.
  - rewrite He. cbn [outcome]. rewrite format_report. reflexivity.
Qed.

(** C3, as amended.  A successful fetch-output (task found, output
    retrieved, filter missing, empty or compiling) reports, in order: the
    status line; a PID line exactly when the task has a PID; the number of
    buffered lines; the number of matched lines exactly when the filter is
    a non-empty string; then the shown lines joined by newlines.  A PID,
    when the task has one, identifies a spawned process and so is not
    zero. *)
Theorem report_structure (params : BashOutput.BashOutputParams) (m : M) (task : Task)
    (buffered shown : list string) :
  getTask m (BashOutput.bash_id params) = Some task ->
  getOutput m (BashOutput.bash_id params) 0 = Some buffered ->
  task_pid task <> Some 0%N ->
  (truthy (BashOutput.filter params) = None /\ shown = buffered)
  \/ (exists f regex, truthy (BashOutput.filter params) = Some f
                      /\ newRegExp f = Returns regex
                      /\ shown = List.filter (test regex) buffered) ->
  let lines :=
    (["Status: " +:+ task_status task]
     ++ match task_pid task with
        | Some pid => ["PID: " +:+ tpl_N pid]
        | None => []
        end
     ++ ["Lines buffered: " +:+ tpl_nat (length buffered)]
     ++ match truthy (BashOutput.filter params) with
        | Some _ => ["Matched lines: " +:+ tpl_nat (length shown)]
        | None => []
        end)%list in
  outcome (BashOutput.execute params m)
  = Returns {| llmContent := join nl [join nl lines; ""; "Output:"; join nl shown];
               returnDisplay := join " | " lines +:+ nl +:+ join nl shown |}
  /\ ((exists f, truthy (BashOutput.filter params) = Some f)
      <-> exists f, BashOutput.filter params = Some f /\ f <> "").
Proof.
  intros Ht Ho Hpid Hs lines. subst lines. split.
  - rewrite (successful_run params m task buffered shown Ht Ho Hs).
    unfold report, report_lines, pid_line, matched_line.
    destruct (task_pid task) as [[|p]|]; [congruence | |];
      destruct (BashOutput.filter params) as [[|c f]|]; reflexivity.
  - destruct (BashOutput.filter params) as [[|c f]|]; cbn [truthy]; split.
    + intros [f Hf]. discriminate.
    + intros (f & Hf & Hne). congruence.
    + intros _. exists (String c f). split; [reflexivity | discriminate].
    + intros _. eexists. reflexivity.
    + intros [f Hf]. discriminate.
    + intros (f & Hf & _). discriminate.
Qed.

(** C10.  An empty [filter] is treated as a missing one, although the
    empty pattern would compile: the run is the run without a filter,
    nothing is compiled, and on a task that is found and read the report
    shows every buffered line and no matched-line count. *)
Theorem empty_filter_is_absent (params : BashOutput.BashOutputParams) (m : M) :
  BashOutput.filter params = Some "" ->
  (exists regex, newRegExp "" = Returns regex)
  /\ BashOutput.execute params m
  = BashOutput.execute
      {| BashOutput.bash_id := BashOutput.bash_id params; BashOutput.filter := None |} m
  /\ (forall pattern, ~ In (CallNewRegExp pattern) (calls (BashOutput.execute params m)))
  /\ (forall task buffered,
        getTask m (BashOutput.bash_id params) = Some task ->
        getOutput m (BashOutput.bash_id params) 0 = Some buffered ->
        BashOutput.execute params m =
        {| outcome := Returns
             (report (["Status: " +:+ task_status task] ++ pid_line task
                      ++ ["Lines buffered: " +:+ tpl_nat (length buffered)])
                     buffered);
           manager := m;
           calls := [CallGetTask (BashOutput.bash_id params);
                     CallGetOutput (BashOutput.bash_id params) 0] |}).
Proof.
  intros Hf.
  pose proof (fetch_output_runs params m) as H. cbv zeta in H.
  pose proof (fetch_output_runs
                {| BashOutput.bash_id := BashOutput.bash_id params;
                   BashOutput.filter := None |} m) as H0.
  cbv zeta in H0. cbn [BashOutput.bash_id BashOutput.filter truthy] in H0.
  rewrite Hf in H. cbn [truthy] in H.
  split; [exact newRegExp_empty|]. split; [|split].
  - rewrite H, H0.
    destruct (getTask m _); [destruct (getOutput m _ _)|]; try reflexivity.
    rewrite !format_report, Hf. reflexivity.
  - intros pattern. rewrite H.
    destruct (getTask m _); [destruct (getOutput m _ _)|]; cbn; intuition discriminate.
  - intros task buffered Ht Ho. rewrite H, Ht, Ho, format_report, Hf.
    unfold report_lines, matched_line. cbn [String.eqb]. rewrite app_nil_r. reflexivity.
Qed.

(** C9.  Parameters that pass [validateToolParamValues] never reach the
    invalid-filter branch of [execute]: every pattern [execute] compiles
    does compile, and no result of [execute] is the invalid-filter one. *)
Theorem validated_filter_never_invalid (params : BashOutput.BashOutputParams) (m : M) :
  BashOutput.validateToolParamValues params = None ->
  (forall pattern, In (CallNewRegExp pattern) (calls (BashOutput.execute params m)) ->
                   exists regex, newRegExp pattern = Returns regex)
  /\ (forall r, outcome (BashOutput.execute params m) = Returns r ->
                startsWith (llmContent r) "Invalid filter regex: " = false
                /\ returnDisplay r <> "Error: Invalid filter pattern.").
Proof.
  intros Hv.
  assert (Hok : truthy (BashOutput.filter params) = None
                \/ exists f regex, truthy (BashOutput.filter params) = Some f
                                   /\ newRegExp f = Returns regex).
  { unfold BashOutput.validateToolParamValues in Hv.
    destruct (match truthy (BashOutput.bash_id params) with
              | Some id => (String.length (trim id) =? 0)%nat
              | None => true
              end); [discriminate|].
    destruct (truthy (BashOutput.filter params)) as [f|]; [|left; reflexivity].
    destruct (newRegExp f) as [regex|e] eqn:He; [|discriminate].
    right. exists f, regex. split; [reflexivity | exact He]. }
  pose proof (fetch_output_runs params m) as H. cbv zeta in H. rewrite H.
  destruct (getTask m _) as [task|].
  2:{ split.
      - intros pattern Hin. cbn in Hin. intuition discriminate.
      - intros r Hr. cbn [outcome] in Hr. injection Hr as <-. cbn [llmContent returnDisplay].
        split; [reflexivity|]. intros Heq. cbv in Heq. discriminate. }
  destruct (getOutput m _ _) as [buffered|].
  2:{ split.
      - intros pattern Hin. cbn in Hin. intuition discriminate.
      - intros r Hr. cbn [outcome] in Hr. injection Hr as <-. cbn [llmContent returnDisplay].
        split; [reflexivity|]. intros Heq. cbv in Heq. discriminate. }
  assert (Hfmt : forall shown r,
             Returns (BashOutput.format params task buffered shown) = Returns r ->
             startsWith (llmContent r) "Invalid filter regex: " = false
             /\ returnDisplay r <> "Error: Invalid filter pattern.").
  { intros shown r Hr. injection Hr as <-. rewrite format_report.
    destruct (report_starts_with_status task (BashOutput.filter params) buffered shown)
      as (t1 & t2 & -> & ->).
    split; [reflexivity|]. intros Heq. cbv in Heq. discriminate. }
  destruct Hok as [Hf | (f & regex & Hf & He)]; rewrite Hf.
  - split.
    + intros pattern Hin. cbn in Hin. intuition discriminate.
    + intros r Hr. exact (Hfmt _ _ Hr).
  - rewrite He. split.
    + intros pattern Hin. cbn in Hin. destruct Hin as [Hin | [Hin | [Hin | []]]];
        try discriminate. injection Hin as <-. exists regex. exact He.
    + intros r Hr. exact (Hfmt _ _ Hr).
Qed.

End FetchOutputClaims.

(** ** Terminate: its runs and what the specification claims *)

Section TerminateClaims.
Context {M : Type} {TM : TaskManager M} {EU : ErrorUtils}.

(** [execute] read as one case analysis on what the manager answers. *)
Lemma terminate_runs (params : KillShell.KillShellParams) (m : M) :
  let id := KillShell.shell_id params in
  KillShell.execute params m =
  match getTask m id with
  | None =>
      {| outcome := Returns
           {| llmContent := "Background task not found: " +:+ tpl id
                            +:+ ". Task may have already completed or been cleaned up.";
              returnDisplay := "Error: Task " +:+ tpl id +:+ " not found." |};
         manager := m; calls := [CallGetTask id] |}
  | Some task =>
      if String.eqb (task_status task) "running"
      then
        {| outcome := Returns
             match fst (killTask m id) with
             | Returns true =>
                 {| llmContent := "Successfully terminated background task " +:+ tpl id
                                  +:+ " (command: " +:+ task_command task +:+ ")";
                    returnDisplay := "Task " +:+ tpl id +:+ " terminated." |}
             | Returns false =>
                 {| llmContent := "Failed to kill task " +:+ tpl id
                                  +:+ ". Task may have already terminated.";
                    returnDisplay := "Failed to kill task." |}
             | Throws error =>
                 {| llmContent := "Error terminating background task " +:+ tpl id +:+ ": "
                                  +:+ getErrorMessage error;
                    returnDisplay := "Error: " +:+ getErrorMessage error |}
             end;
           manager := snd (killTask m id);
           calls := [CallGetTask id; CallKillTask id] |}
      else
        {| outcome := Returns
             {| llmContent := "Task " +:+ tpl id +:+ " is not running (status: "
                              +:+ task_status task +:+ "). No need to kill.";
                returnDisplay := "Task already " +:+ task_status task +:+ "." |};
           manager := m; calls := [CallGetTask id] |}
  end.
Proof.
  cbv zeta. unfold KillShell.execute, bind, call_getTask. cbn [outcome manager calls].
  destruct (getTask m (KillShell.shell_id params)) as [task|]; [|reflexivity].
  destruct (String.eqb (task_status task) "running"); [|reflexivity].
  cbn [negb]. unfold try_catch, bind, call_killTask.
  destruct (killTask m (KillShell.shell_id params)) as [[[|]|error] m']; reflexivity.
Qed.

(** C4.  Terminating a task that exists but is not [running] changes
    nothing: the result is a normal one that reports the task's status, the
    only call made is the lookup (no [killTask]), and the manager's state is
    the one before. *)
Theorem terminate_not_running_is_noop (params : KillShell.KillShellParams) (m : M)
    (task : Task) :
  getTask m (KillShell.shell_id params) = Some task ->
  task_status task <> "running" ->
  KillShell.execute params m =
  {| outcome := Returns
       {| llmContent := "Task " +:+ tpl (KillShell.shell_id params)
                        +:+ " is not running (status: " +:+ task_status task
                        +:+ "). No need to kill.";
          returnDisplay := "Task already " +:+ task_status task +:+ "." |};
     manager := m;
     calls := [CallGetTask (KillShell.shell_id params)] |}
  /\ (forall id, ~ In (CallKillTask id) (calls (KillShell.execute params m)))
  /\ getTask (manager (KillShell.execute params m)) (KillShell.shell_id params) = Some task.
Proof.
  intros Ht Hs.
  pose proof (terminate_runs params m) as H. cbv zeta in H.
  rewrite Ht in H. apply String.eqb_neq in Hs. rewrite Hs in H. rewrite H.
  split; [reflexivity | split].
  - intros id Hin. cbn in Hin. intuition discriminate.
  - exact Ht.
Qed.

(** C8.  Terminating a running task calls [killTask] once.  When it
    answers [true] the result is the success message, which includes the
    task's command; when it answers [false] the result is the failure
    message.  Either way (and also when [killTask] throws) [execute] returns
    normally. *)
Theorem terminate_running_reports_kill (params : KillShell.KillShellParams) (m m' : M)
    (task : Task) (killed : bool) :
  getTask m (KillShell.shell_id params) = Some task ->
  task_status task = "running" ->
  killTask m (KillShell.shell_id params) = (Returns killed, m') ->
  KillShell.execute params m =
  {| outcome := Returns
       (if killed
        then {| llmContent := "Successfully terminated background task "
                              +:+ tpl (KillShell.shell_id params) +:+ " (command: "
                              +:+ task_command task +:+ ")";
                returnDisplay := "Task " +:+ tpl (KillShell.shell_id params)
                                 +:+ " terminated." |}
        else {| llmContent := "Failed to kill task " +:+ tpl (KillShell.shell_id params)
                              +:+ ". Task may have already terminated.";
                returnDisplay := "Failed to kill task." |});
     manager := m';
     calls := [CallGetTask (KillShell.shell_id params);
               CallKillTask (KillShell.shell_id params)] |}
  /\ includes ("Successfully terminated background task "
               +:+ tpl (KillShell.shell_id params) +:+ " (command: "
               +:+ task_command task +:+ ")")
              (task_command task)
  /\ (forall params0 m0, exists r, outcome (KillShell.execute params0 m0) = Returns r).
Proof.
  intros Ht Hs Hk. split; [|split].
  - pose proof (terminate_runs params m) as H. cbv zeta in H.
    rewrite Ht, Hs, Hk in H. rewrite H. destruct killed; reflexivity.
  - exists ("Successfully terminated background task "
            +:+ tpl (KillShell.shell_id params) +:+ " (command: "), ")".
    rewrite !append_assoc. reflexivity.
  - intros params0 m0.
    pose proof (terminate_runs params0 m0) as H. cbv zeta in H. rewrite H.
    destruct (getTask m0 _) as [t|]; [destruct (String.eqb _ _)|]; eexists; reflexivity.
Qed.

(** The confirmation of terminate, branch by branch. *)
Lemma terminate_confirmation (params : KillShell.KillShellParams) (m : M) :
  KillShell.getConfirmationDetails params m =
  {| outcome := Returns
       match getTask m (KillShell.shell_id params) with
       | Some task =>
           Some {| type := "exec"; title := "Confirm Terminate Background Task";
                   command := task_command task; rootCommand := "kill" |}
       | None => None
       end;
     manager := m;
     calls := [CallGetTask (KillShell.shell_id params)] |}.
Proof.
  unfold KillShell.getConfirmationDetails, bind, call_getTask. cbn [outcome manager calls].
  destruct (getTask m (KillShell.shell_id params)); reflexivity.
Qed.

End TerminateClaims.

(** ** Claims about both operations *)

(** Closes [s.startsWith(p) = true <-> a = b] when the string starts
    otherwise and the equation is between different constructors. *)
Ltac absurd_iff :=
  let Hx := fresh "Hx" in
  split; intros Hx; [cbv in Hx|]; discriminate.

Section BothOperations.
Context {M : Type} {TM : TaskManager M} {RE : RegExpEngine} {EU : ErrorUtils}.

(** C7.  Only terminate asks for confirmation.  On an existing task its
    details carry the task's command and the root command [kill]; when the
    task is not found it asks for none; fetch-output never asks and calls
    nothing. *)
Theorem only_terminate_asks_confirmation :
  (forall (params : KillShell.KillShellParams) (m : M) (task : Task),
      getTask m (KillShell.shell_id params) = Some task ->
      outcome (KillShell.getConfirmationDetails params m)
      = Returns (Some {| type := "exec"; title := "Confirm Terminate Background Task";
                         command := task_command task; rootCommand := "kill" |}))
  /\ (forall (params : KillShell.KillShellParams) (m : M),
      getTask m (KillShell.shell_id params) = None ->
      outcome (KillShell.getConfirmationDetails params m) = Returns None)
  /\ (forall (params : BashOutput.BashOutputParams) (m : M),
      BashOutput.getConfirmationDetails params m
      = {| outcome := Returns None; manager := m; calls := [] |}).
Proof.
  split; [|split].
  - intros params m task Ht. rewrite terminate_confirmation, Ht. reflexivity.
  - intros params m Ht. rewrite terminate_confirmation, Ht. reflexivity.
  - intros params m. reflexivity.
Qed.

(** C5.  An identifier without a task yields, for both operations, a
    normal result whose message names the identifier, after the lookup
    alone; and a result starts with [Background task not found: ] only in
    that case, which tells it from every other failure. *)
Theorem not_found_is_a_normal_result :
  (forall (params : BashOutput.BashOutputParams) (m : M),
      getTask m (BashOutput.bash_id params) = None ->
      BashOutput.execute params m =
      {| outcome := Returns
           {| llmContent := "Background task not found: " +:+ tpl (BashOutput.bash_id params)
                            +:+ ". Task may have been cleaned up.";
              returnDisplay := "Error: Task " +:+ tpl (BashOutput.bash_id params)
                               +:+ " not found." |};
         manager := m;
         calls := [CallGetTask (BashOutput.bash_id params)] |})
  /\ (forall (params : KillShell.KillShellParams) (m : M),
      getTask m (KillShell.shell_id params) = None ->
      KillShell.execute params m =
      {| outcome := Returns
           {| llmContent := "Background task not found: " +:+ tpl (KillShell.shell_id params)
                            +:+ ". Task may have already completed or been cleaned up.";
              returnDisplay := "Error: Task " +:+ tpl (KillShell.shell_id params)
                               +:+ " not found." |};
         manager := m;
         calls := [CallGetTask (KillShell.shell_id params)] |})
  /\ (forall (params : BashOutput.BashOutputParams) (m : M),
      exists r, outcome (BashOutput.execute params m) = Returns r
                /\ (startsWith (llmContent r) "Background task not found: " = true
                    <-> getTask m (BashOutput.bash_id params) = None))
  /\ (forall (params : KillShell.KillShellParams) (m : M),
      exists r, outcome (KillShell.execute params m) = Returns r
                /\ (startsWith (llmContent r) "Background task not found: " = true
                    <-> getTask m (KillShell.shell_id params) = None)).
Proof.
  split; [|split; [|split]].
  - intros params m Ht.
    pose proof (fetch_output_runs params m) as H. cbv zeta in H. rewrite H, Ht. reflexivity.
  - intros params m Ht.
    pose proof (terminate_runs params m) as H. cbv zeta in H. rewrite H, Ht. reflexivity.
  - intros params m.
    pose proof (fetch_output_runs params m) as H. cbv zeta in H. rewrite H.
    destruct (getTask m _) as [task|].
    2:{ eexists; split; [reflexivity|]. split; intros _; reflexivity. }
    destruct (getOutput m _ _) as [buffered|].
    2:{ eexists; split; [reflexivity|]. absurd_iff. }
    assert (Hfmt : forall shown,
               startsWith (llmContent (BashOutput.format params task buffered shown))
                          "Background task not found: " = true <-> Some task = @None Task).
    { intros shown. rewrite format_report.
      destruct (report_starts_with_status task (BashOutput.filter params) buffered shown)
        as (t1 & t2 & -> & _).
      absurd_iff. }
    destruct (truthy _) as [f|]; [destruct (newRegExp f)|]; eexists;
      (split; [reflexivity|]); cbn [llmContent]; try apply Hfmt; absurd_iff.
  - intros params m.
    pose proof (terminate_runs params m) as H. cbv zeta in H. rewrite H.
    destruct (getTask m _) as [task|].
    2:{ eexists; split; [reflexivity|]. split; intros _; reflexivity. }
    destruct (String.eqb _ _).
    + destruct (fst (killTask m _)) as [[|]|error]; eexists;
        (split; [reflexivity|]); absurd_iff.
    + eexists; split; [reflexivity|]. absurd_iff.
Qed.

(** C6.  Fetch-output's validation rejects, with a message, exactly the
    parameters whose [bash_id] is missing, empty or white space only, or
    whose supplied [filter] does not compile; terminate's validation rejects
    exactly those whose [shell_id] is missing, empty or white space only.
    Everything else validates to [null]. *)
Theorem validation_rejects_exactly :
  (forall params : BashOutput.BashOutputParams,
      ((exists msg, BashOutput.validateToolParamValues params = Some msg)
       <-> blank (BashOutput.bash_id params)
           \/ exists f error, BashOutput.filter params = Some f
                              /\ newRegExp f = Throws error)
      /\ (BashOutput.validateToolParamValues params = None
          <-> ~ (blank (BashOutput.bash_id params)
                 \/ exists f error, BashOutput.filter params = Some f
                                    /\ newRegExp f = Throws error)))
  /\ (forall params : KillShell.KillShellParams,
      ((exists msg, KillShell.validateToolParamValues params = Some msg)
       <-> blank (KillShell.shell_id params))
      /\ (KillShell.validateToolParamValues params = None
          <-> ~ blank (KillShell.shell_id params))).
Proof.
  split.
  - intros params.
    assert (Hmain : (exists msg, BashOutput.validateToolParamValues params = Some msg)
                    <-> blank (BashOutput.bash_id params)
                        \/ exists f error, BashOutput.filter params = Some f
                                           /\ newRegExp f = Throws error).
    { unfold BashOutput.validateToolParamValues.
      pose proof (rejected_iff_blank (BashOutput.bash_id params)) as Hb.
      destruct (match truthy (BashOutput.bash_id params) with
                | Some id => (String.length (trim id) =? 0)%nat
                | None => true
                end).
      - split; [intros _; left; apply Hb; reflexivity | intros _; eexists; reflexivity].
      - assert (Hnb : ~ blank (BashOutput.bash_id params)).
        { intros Hbl. apply Hb in Hbl. discriminate. }
        destruct (BashOutput.filter params) as [[|c f]|]; cbn [truthy].
        + split; [intros [msg Hm]; discriminate|].
          intros [Hbl | (f & e & Hf & He)]; [contradiction|].
          injection Hf as <-. destruct newRegExp_empty as [r Hr]. congruence.
        + destruct (newRegExp (String c f)) as [regex|error] eqn:He.
          * split; [intros [msg Hm]; discriminate|].
            intros [Hbl | (f' & e & Hf & He')]; [contradiction|].
            injection Hf as <-. congruence.
          * split; [|intros _; eexists; reflexivity].
            intros _. right. exists (String c f), error. split; [reflexivity | exact He].
        + split; [intros [msg Hm]; discriminate|].
          intros [Hbl | (f & e & Hf & He)]; [contradiction | discriminate]. }
    split; [exact Hmain|].
    rewrite <- Hmain.
    destruct (BashOutput.validateToolParamValues params) as [msg|].
    + split; [discriminate | intros Hn; exfalso; apply Hn; eexists; reflexivity].
    + split; [intros _ [msg Hm]; discriminate | reflexivity].
  - intros params.
    assert (Hmain : (exists msg, KillShell.validateToolParamValues params = Some msg)
                    <-> blank (KillShell.shell_id params)).
    { unfold KillShell.validateToolParamValues.
      pose proof (rejected_iff_blank (KillShell.shell_id params)) as Hb.
      destruct (match truthy (KillShell.shell_id params) with
                | Some id => (String.length (trim id) =? 0)%nat
                | None => true
                end).
      - split; [intros _; apply Hb; reflexivity | intros _; eexists; reflexivity].
      - split; [intros [msg Hm]; discriminate | intros Hbl; apply Hb in Hbl; discriminate]. }
    split; [exact Hmain|].
    rewrite <- Hmain.
    destruct (KillShell.validateToolParamValues params) as [msg|].
    + split; [discriminate | intros Hn; exfalso; apply Hn; eexists; reflexivity].
    + split; [intros _ [msg Hm]; discriminate | reflexivity].
Qed.

End BothOperations.

(** ** The reference engine on the pattern [a$] *)

(** [a$] matches exactly the strings that end in [a]. *)
Lemma a_dollar_matches_final_a (atStart : bool) (text : string) :
  BasicRegExp.search [BasicRegExp.One (BasicRegExp.Char "a"); BasicRegExp.Eol] atStart text
  = true
  <-> exists before, text = before +:+ "a".
Proof.
  revert atStart. induction text as [|c t IH]; intros atStart.
  - cbn. split; [discriminate|]. intros [[|x before] H]; discriminate.
  - cbn [BasicRegExp.search BasicRegExp.matchHere BasicRegExp.atom_matches].
    rewrite orb_true_iff, andb_true_iff, (IH false), Ascii.eqb_eq. split.
    + intros [[<- Ht] | [before ->]].
      * destruct t; [|discriminate]. exists "". reflexivity.
      * exists (String c before). reflexivity.
    + intros [[|x before] H].
      * injection H as -> ->. left. split; reflexivity.
      * injection H as -> ->. right. exists before. reflexivity.
Qed.

Lemma a_dollar_compiles :
  newRegExp (RegExpEngine := BasicRegExp.engine) "a$"
  = Returns [BasicRegExp.One (BasicRegExp.Char "a"); BasicRegExp.Eol].
Proof. reflexivity. Qed.

(** The empty pattern matches every line. *)
Lemma empty_pattern_matches_all (line : string) :
  test (RegExpEngine := BasicRegExp.engine) [] line = true.
Proof. destruct line; reflexivity. Qed.

(** ** The claims on the filter, with the example of the specification *)

(** C2, as amended.  With a non-empty filter that compiles, over a task
    whose buffer holds [buffered], the output shown is exactly the lines of
    [buffered] that match the pattern, in their order; the report counts
    the matched lines as the length of that list and the buffered lines as
    the length of [buffered].  In particular, on the buffer
    [alpha; beta; gamma] the pattern [a$] keeps all three lines (each ends
    in [a]) and the report says 3 matched of 3 buffered. *)
Theorem filtered_output_is_matching_subsequence :
  (forall (M : Type) (TM : TaskManager M) (RE : RegExpEngine)
          (params : BashOutput.BashOutputParams) (m : M) (task : Task)
          (buffered : list string) (f : string) (regex : RegExp),
      getTask m (BashOutput.bash_id params) = Some task ->
      getOutput m (BashOutput.bash_id params) 0 = Some buffered ->
      BashOutput.filter params = Some f ->
      f <> "" ->
      newRegExp f = Returns regex ->
      let shown := List.filter (test regex) buffered in
      BashOutput.execute params m =
      {| outcome := Returns
           (report (["Status: " +:+ task_status task] ++ pid_line task
                    ++ ["Lines buffered: " +:+ tpl_nat (length buffered);
                        "Matched lines: " +:+ tpl_nat (length shown)])
                   shown);
         manager := m;
         calls := [CallGetTask (BashOutput.bash_id params);
                   CallGetOutput (BashOutput.bash_id params) 0;
                   CallNewRegExp f] |}
      /\ (forall line, In line shown <-> In line buffered /\ test regex line = true)
      /\ shown `sublist_of` buffered)
  /\ (forall (M : Type) (TM : TaskManager M)
             (params : BashOutput.BashOutputParams) (m : M) (task : Task),
      getTask m (BashOutput.bash_id params) = Some task ->
      getOutput m (BashOutput.bash_id params) 0 = Some ["alpha"; "beta"; "gamma"] ->
      BashOutput.filter params = Some "a$" ->
      outcome (BashOutput.execute (RE := BasicRegExp.engine) params m)
      = Returns
          (report (["Status: " +:+ task_status task] ++ pid_line task
                   ++ ["Lines buffered: 3"; "Matched lines: 3"])
                  ["alpha"; "beta"; "gamma"])).
Proof.
  split.
  - intros M TM RE params m task buffered f regex Ht Ho Hf Hne He.
    exact (filtered_run params m task buffered f regex Ht Ho Hf Hne He).
  - intros M TM params m task Ht Ho Hf.
    destruct (filtered_run (RE := BasicRegExp.engine) params m task
                ["alpha"; "beta"; "gamma"] "a$" _ Ht Ho Hf ltac:(discriminate)
                a_dollar_compiles) as [H _].
    rewrite H. reflexivity.
Qed.

(** ** The claims on concrete runs *)

(** C1 at a concrete input: the pattern [(] on the task [bg_1]. *)
Lemma invalid_filter_reported_after_output_read_witness :
  Examples.fetch (Some "bg_1") (Some "(") =
  {| outcome := Returns
       {| llmContent := "Invalid filter regex: (. Error: "
                        +:+ "Invalid regular expression: /(/: Unterminated group";
          returnDisplay := "Error: Invalid filter pattern." |};
     manager := Examples.state;
     calls := [CallGetTask (Some "bg_1"); CallGetOutput (Some "bg_1") 0; CallNewRegExp "("] |}.
Proof.
  refine (proj1 (invalid_filter_reported_after_output_read
                   (TM := Reference.task_manager) (RE := BasicRegExp.engine)
                   {| BashOutput.bash_id := Some "bg_1"; BashOutput.filter := Some "(" |}
                   Examples.state "("
                   {| message := "Invalid regular expression: /(/: Unterminated group" |}
                   _ _)
                Examples.dev_server ["alpha"; "beta"; "gamma"] _ _);
    reflexivity.
Defined.

(** C1 as stated fails: the filter [(] does not compile, and the run that
    reports it has read the task's output before compiling it; on a task
    that does not exist the same filter is never reported at all. *)
Lemma invalid_filter_output_already_read :
  (exists error, newRegExp (RegExpEngine := BasicRegExp.engine) "(" = Throws error)
  /\ calls (Examples.fetch (Some "bg_1") (Some "("))
     = [CallGetTask (Some "bg_1"); CallGetOutput (Some "bg_1") 0; CallNewRegExp "("]
  /\ getOutput (TaskManager := Reference.task_manager) Examples.state (Some "bg_1") 0
     = Some ["alpha"; "beta"; "gamma"]
  /\ outcome (Examples.fetch (Some "bg_9") (Some "("))
     = Returns {| llmContent := "Background task not found: bg_9. Task may have been cleaned up.";
                  returnDisplay := "Error: Task bg_9 not found." |}.
Proof.
  split; [eexists; reflexivity|]. split; [reflexivity|]. split; reflexivity.
Qed.

(** C2 at a concrete input: the pattern [a$] on the task [bg_1]. *)
Lemma filtered_output_is_matching_subsequence_witness :
  Examples.fetch (Some "bg_1") (Some "a$") =
  {| outcome := Returns
       (report ["Status: running"; "PID: 4242"; "Lines buffered: 3"; "Matched lines: 3"]
               ["alpha"; "beta"; "gamma"]);
     manager := Examples.state;
     calls := [CallGetTask (Some "bg_1"); CallGetOutput (Some "bg_1") 0; CallNewRegExp "a$"] |}.
Proof.
  refine (proj1 (proj1 filtered_output_is_matching_subsequence
                   Reference.State Reference.task_manager BasicRegExp.engine
                   {| BashOutput.bash_id := Some "bg_1"; BashOutput.filter := Some "a$" |}
                   Examples.state Examples.dev_server ["alpha"; "beta"; "gamma"] "a$"
                   [BasicRegExp.One (BasicRegExp.Char "a"); BasicRegExp.Eol]
                   _ _ _ _ _));
    try reflexivity. discriminate.
Defined.

(** C2 as stated fails twice.  On [alpha; beta; gamma] the pattern [a$]
    matches [beta] too, so the output is all three lines and the count is
    3 of 3, not [alpha; gamma] and 2 of 3.  And the empty filter, a valid
    pattern, yields a report without any matched-line count. *)
Lemma a_dollar_keeps_beta_and_empty_filter_counts_nothing :
  test (RegExpEngine := BasicRegExp.engine)
       [BasicRegExp.One (BasicRegExp.Char "a"); BasicRegExp.Eol] "beta" = true
  /\ outcome (Examples.fetch (Some "bg_1") (Some "a$"))
     = Returns (report ["Status: running"; "PID: 4242"; "Lines buffered: 3";
                        "Matched lines: 3"]
                       ["alpha"; "beta"; "gamma"])
  /\ outcome (Examples.fetch (Some "bg_1") (Some "a$"))
     <> Returns (report ["Status: running"; "PID: 4242"; "Lines buffered: 3";
                         "Matched lines: 2"]
                        ["alpha"; "gamma"])
  /\ newRegExp (RegExpEngine := BasicRegExp.engine) "" = Returns []
  /\ outcome (Examples.fetch (Some "bg_1") (Some ""))
     = Returns (report ["Status: running"; "PID: 4242"; "Lines buffered: 3"]
                       ["alpha"; "beta"; "gamma"]).
Proof.
  split; [reflexivity|]. split; [reflexivity|]. split; [|split; reflexivity].
  intros H. vm_compute in H. discriminate.
Qed.

(** C3 at a concrete input: the pattern [^g] on the task [bg_1]. *)
Lemma report_structure_witness :
  outcome (Examples.fetch (Some "bg_1") (Some "^g"))
  = Returns
      {| llmContent :=
           join nl [join nl ["Status: running"; "PID: 4242"; "Lines buffered: 3";
                             "Matched lines: 1"];
                    ""; "Output:"; join nl ["gamma"]];
         returnDisplay :=
           join " | " ["Status: running"; "PID: 4242"; "Lines buffered: 3";
                       "Matched lines: 1"]
           +:+ nl +:+ join nl ["gamma"] |}.
Proof.
  refine (proj1 (report_structure
                   (TM := Reference.task_manager) (RE := BasicRegExp.engine)
                   {| BashOutput.bash_id := Some "bg_1"; BashOutput.filter := Some "^g" |}
                   Examples.state Examples.dev_server ["alpha"; "beta"; "gamma"] ["gamma"]
                   _ _ _ _));
    try reflexivity.
  - discriminate.
  - right. exists "^g", [BasicRegExp.Bol; BasicRegExp.One (BasicRegExp.Char "g")].
    split; [reflexivity | split; reflexivity].
Defined.

(** C3 as stated fails: with the filter supplied as the empty string, a
    valid pattern, the report has no matched-line count. *)
Lemma empty_filter_drops_matched_line :
  BashOutput.filter
    {| BashOutput.bash_id := Some "bg_1"; BashOutput.filter := Some "" |} = Some ""
  /\ newRegExp (RegExpEngine := BasicRegExp.engine) "" = Returns []
  /\ outcome (Examples.fetch (Some "bg_1") (Some ""))
     = Returns (report ["Status: running"; "PID: 4242"; "Lines buffered: 3"]
                       ["alpha"; "beta"; "gamma"]).
Proof. split; [reflexivity|]. split; reflexivity. Qed.

(** C4 at a concrete input: the completed task [bg_2]. *)
Lemma terminate_not_running_is_noop_witness :
  Examples.terminate (Some "bg_2") =
  {| outcome := Returns
       {| llmContent := "Task bg_2 is not running (status: completed). No need to kill.";
          returnDisplay := "Task already completed." |};
     manager := Examples.state;
     calls := [CallGetTask (Some "bg_2")] |}.
Proof.
  refine (proj1 (terminate_not_running_is_noop
                   (TM := Reference.task_manager) (EU := Reference.errors)
                   {| KillShell.shell_id := Some "bg_2" |}
                   Examples.state Examples.finished_build _ _));
    [reflexivity | discriminate].
Defined.

(** C5 at a concrete input: the unknown identifier [bg_9]. *)
Lemma not_found_is_a_normal_result_witness :
  Examples.fetch (Some "bg_9") None =
  {| outcome := Returns
       {| llmContent := "Background task not found: bg_9. Task may have been cleaned up.";
          returnDisplay := "Error: Task bg_9 not found." |};
     manager := Examples.state;
     calls := [CallGetTask (Some "bg_9")] |}
  /\ Examples.terminate (Some "bg_9") =
     {| outcome := Returns
          {| llmContent := "Background task not found: bg_9. "
                           +:+ "Task may have already completed or been cleaned up.";
             returnDisplay := "Error: Task bg_9 not found." |};
        manager := Examples.state;
        calls := [CallGetTask (Some "bg_9")] |}.
Proof.
  split.
  - refine (proj1 (not_found_is_a_normal_result
                     (TM := Reference.task_manager) (RE := BasicRegExp.engine)
                     (EU := Reference.errors))
                  {| BashOutput.bash_id := Some "bg_9"; BashOutput.filter := None |}
                  Examples.state _).
    reflexivity.
  - refine (proj1 (proj2 (not_found_is_a_normal_result
                            (TM := Reference.task_manager) (RE := BasicRegExp.engine)
                            (EU := Reference.errors)))
                  {| KillShell.shell_id := Some "bg_9" |} Examples.state _).
    reflexivity.
Defined.

(** C7 at a concrete input: confirming the termination of [bg_1]. *)
Lemma only_terminate_asks_confirmation_witness :
  outcome (KillShell.getConfirmationDetails (TM := Reference.task_manager)
             {| KillShell.shell_id := Some "bg_1" |} Examples.state)
  = Returns (Some {| type := "exec"; title := "Confirm Terminate Background Task";
                     command := "npm run dev"; rootCommand := "kill" |}).
Proof.
  refine (proj1 (only_terminate_asks_confirmation (TM := Reference.task_manager))
                {| KillShell.shell_id := Some "bg_1" |} Examples.state Examples.dev_server _).
  reflexivity.
Defined.

(** C8 at two concrete inputs: [bg_1], whose process is live, and [bg_4],
    whose process has already gone. *)
Lemma terminate_running_reports_kill_witness :
  outcome (Examples.terminate (Some "bg_1"))
  = Returns {| llmContent := "Successfully terminated background task bg_1 "
                             +:+ "(command: npm run dev)";
               returnDisplay := "Task bg_1 terminated." |}
  /\ calls (Examples.terminate (Some "bg_1"))
     = [CallGetTask (Some "bg_1"); CallKillTask (Some "bg_1")]
  /\ option_map task_status
       (getTask (TaskManager := Reference.task_manager)
          (manager (Examples.terminate (Some "bg_1"))) (Some "bg_1"))
     = Some "killed"
  /\ Examples.terminate (Some "bg_4") =
     {| outcome := Returns {| llmContent := "Failed to kill task bg_4. "
                                            +:+ "Task may have already terminated.";
                              returnDisplay := "Failed to kill task." |};
        manager := Examples.state;
        calls := [CallGetTask (Some "bg_4"); CallKillTask (Some "bg_4")] |}.
Proof.
  pose proof (proj1 (terminate_running_reports_kill
                       (TM := Reference.task_manager) (EU := Reference.errors)
                       {| KillShell.shell_id := Some "bg_1" |} Examples.state
                       (snd (Reference.kill_task Examples.state (Some "bg_1")))
                       Examples.dev_server true eq_refl eq_refl eq_refl)) as H1.
  pose proof (proj1 (terminate_running_reports_kill
                       (TM := Reference.task_manager) (EU := Reference.errors)
                       {| KillShell.shell_id := Some "bg_4" |} Examples.state
                       Examples.state Examples.vanished false eq_refl eq_refl eq_refl))
    as H4.
  unfold Examples.terminate. rewrite H1. split; [reflexivity|]. split; [reflexivity|].
  split; [reflexivity|]. exact H4.
Defined.

(** C9 at a concrete input: the validated filter [a$] on [bg_1]. *)
Lemma validated_filter_never_invalid_witness :
  BashOutput.validateToolParamValues (RE := BasicRegExp.engine)
    {| BashOutput.bash_id := Some "bg_1"; BashOutput.filter := Some "a$" |} = None
  /\ (forall pattern,
        In (CallNewRegExp pattern) (calls (Examples.fetch (Some "bg_1") (Some "a$"))) ->
        exists regex, newRegExp (RegExpEngine := BasicRegExp.engine) pattern = Returns regex)
  /\ (forall r,
        outcome (Examples.fetch (Some "bg_1") (Some "a$")) = Returns r ->
        startsWith (llmContent r) "Invalid filter regex: " = false
        /\ returnDisplay r <> "Error: Invalid filter pattern.").
Proof.
  split; [reflexivity|].
  refine (validated_filter_never_invalid
            (TM := Reference.task_manager) (RE := BasicRegExp.engine)
            {| BashOutput.bash_id := Some "bg_1"; BashOutput.filter := Some "a$" |}
            Examples.state _).
  reflexivity.
Defined.

(** C10 at a concrete input: the empty filter on [bg_1]. *)
Lemma empty_filter_is_absent_witness :
  Examples.fetch (Some "bg_1") (Some "") = Examples.fetch (Some "bg_1") None
  /\ Examples.fetch (Some "bg_1") (Some "") =
     {| outcome := Returns
          (report ["Status: running"; "PID: 4242"; "Lines buffered: 3"]
                  ["alpha"; "beta"; "gamma"]);
        manager := Examples.state;
        calls := [CallGetTask (Some "bg_1"); CallGetOutput (Some "bg_1") 0] |}.
Proof.
  pose proof (empty_filter_is_absent
                (TM := Reference.task_manager) (RE := BasicRegExp.engine)
                {| BashOutput.bash_id := Some "bg_1"; BashOutput.filter := Some "" |}
                Examples.state eq_refl) as (_ & H1 & _ & H3).
  split; [exact H1|].
  refine (H3 Examples.dev_server ["alpha"; "beta"; "gamma"] _ _); reflexivity.
Defined.

(** C6 at concrete inputs: a [bash_id] of blanks and a pattern with
    nothing to repeat are rejected, a plain request is accepted, and a
    [shell_id] of blanks is rejected. *)
Lemma validation_rejects_exactly_witness :
  (exists msg, BashOutput.validateToolParamValues (RE := BasicRegExp.engine)
                 {| BashOutput.bash_id := Some "   "; BashOutput.filter := None |}
               = Some msg)
  /\ (exists msg, BashOutput.validateToolParamValues (RE := BasicRegExp.engine)
                    {| BashOutput.bash_id := Some "bg_1"; BashOutput.filter := Some "*" |}
                  = Some msg)
  /\ ~ (blank (Some "bg_1")
        \/ exists f error, Some "a$" = Some f
                           /\ newRegExp (RegExpEngine := BasicRegExp.engine) f = Throws error)
  /\ (exists msg, KillShell.validateToolParamValues {| KillShell.shell_id := Some "  " |}
                  = Some msg).
Proof.
  split; [|split; [|split]].
  - apply (proj1 (validation_rejects_exactly (RE := BasicRegExp.engine))
                 {| BashOutput.bash_id := Some "   "; BashOutput.filter := None |}).
    left. right; right. exists "   ". split; reflexivity.
  - apply (proj1 (validation_rejects_exactly (RE := BasicRegExp.engine))
                 {| BashOutput.bash_id := Some "bg_1"; BashOutput.filter := Some "*" |}).
    right. eexists "*", _. split; reflexivity.
  - apply (proj2 (proj1 (validation_rejects_exactly (RE := BasicRegExp.engine))
                        {| BashOutput.bash_id := Some "bg_1";
                           BashOutput.filter := Some "a$" |})).
    reflexivity.
  - apply (proj2 (validation_rejects_exactly (RE := BasicRegExp.engine))
                 {| KillShell.shell_id := Some "  " |}).
    right; right. exists "  ". split; reflexivity.
Defined.

(** * Further properties of the adapters *)

(** ** Strings and lists *)

Lemma append_length (a b : string) :
  String.length (a +:+ b) = (String.length a + String.length b)%nat.
Proof.
  induction a as [|x a IH]; [reflexivity|].
  change (S (String.length (a +:+ b)) = S (String.length a + String.length b)).
  rewrite IH. reflexivity.
Qed.

(** A common suffix cancels. *)
Lemma append_cancel_r (a b c : string) : a +:+ c = b +:+ c -> a = b.
Proof.
  revert b. induction a as [|x a IH]; intros [|y b] H.
  - reflexivity.
  - apply (f_equal String.length) in H. rewrite !append_length in H. cbn in H. lia.
  - apply (f_equal String.length) in H. rewrite !append_length in H. cbn in H. lia.
  - change (String x (a +:+ c) = String y (b +:+ c)) in H.
    injection H as -> H. f_equal. apply IH. exact H.
Qed.

(** A common prefix cancels. *)
Lemma append_cancel_l (a b c : string) : a +:+ b = a +:+ c -> b = c.
Proof.
  induction a as [|x a IH]; intros H; [exact H|].
  change (String x (a +:+ b) = String x (a +:+ c)) in H.
  injection H as H. apply IH. exact H.
Qed.

(** [array.filter] keeps a subsequence. *)
Lemma kept_lines_sublist (keep : string -> bool) (l : list string) :
  List.filter keep l `sublist_of` l.
Proof.
  induction l as [|x l IH]; cbn.
  - constructor.
  - destruct (keep x); [apply sublist_skip | apply sublist_cons]; exact IH.
Qed.

(** A subsequence as long as the list is the list. *)
Lemma sublist_full_length (l1 l2 : list string) :
  l1 `sublist_of` l2 -> length l1 = length l2 -> l1 = l2.
Proof.
  induction 1 as [|x l1 l2 Hs IH|x l1 l2 Hs IH]; intros Hlen.
  - reflexivity.
  - f_equal. apply IH. cbn in Hlen. lia.
  - apply sublist_length in Hs. cbn in Hlen. lia.
Qed.

(** Splits a goal about which calls were made into its closed cases. *)
Ltac split_cases :=
  repeat match goal with
         | |- _ /\ _ => split
         | |- _ <-> _ => split
         | |- forall _, _ => intro
         | H : _ /\ _ |- _ => destruct H
         | H : exists _, _ |- _ => destruct H
         | H : _ \/ _ |- _ => destruct H
         end;
  try discriminate; try congruence; eauto 8.

(** ** Fetch-output: calls, failures and the filter step *)

Section FetchOutputFurther.
Context {M : Type} {TM : TaskManager M} {RE : RegExpEngine}.

(** X1.  Whatever it is asked, fetch-output follows one protocol: it looks
    the task up, reads the whole buffer (offset 0) only if the task exists,
    and compiles the filter only if the buffer was read and the filter is
    non-empty.  It never changes the manager's state. *)
Theorem fetch_output_call_protocol (params : BashOutput.BashOutputParams) (m : M) :
  let id := BashOutput.bash_id params in
  let run := BashOutput.execute params m in
  manager run = m
  /\ (calls run = [CallGetTask id] <-> getTask m id = None)
  /\ (calls run = [CallGetTask id; CallGetOutput id 0]
      <-> (exists task, getTask m id = Some task)
          /\ (getOutput m id 0 = None \/ truthy (BashOutput.filter params) = None))
  /\ (forall f, calls run = [CallGetTask id; CallGetOutput id 0; CallNewRegExp f]
                <-> (exists task, getTask m id = Some task)
                    /\ (exists buffered, getOutput m id 0 = Some buffered)
                    /\ truthy (BashOutput.filter params) = Some f)
  /\ (calls run = [CallGetTask id]
      \/ calls run = [CallGetTask id; CallGetOutput id 0]
      \/ exists f, calls run = [CallGetTask id; CallGetOutput id 0; CallNewRegExp f]).
Proof.
  cbv zeta.
  pose proof (fetch_output_runs params m) as H. cbv zeta in H. rewrite H. clear H.
  destruct (getTask m (BashOutput.bash_id params)) as [task|] eqn:Ht.
  - destruct (getOutput m (BashOutput.bash_id params) 0) as [buffered|] eqn:Ho.
    + destruct (truthy (BashOutput.filter params)) as [f|] eqn:Hf.
      * destruct (newRegExp f) as [regex|error]; cbn [manager calls]; split_cases.
      * cbn [manager calls]. split_cases.
    + cbn [manager calls]. split_cases.
  - cbn [manager calls]. split_cases.
Qed.

End FetchOutputFurther.

Section FetchOutputShape.
Context {M : Type} {TM : TaskManager M} {RE : RegExpEngine}.

(** The first call of fetch-output is the lookup of the identifier. *)
Lemma fetch_output_call_shape (params : BashOutput.BashOutputParams) (m : M) :
  exists rest,
    calls (BashOutput.execute params m) = CallGetTask (BashOutput.bash_id params) :: rest.
Proof.
  pose proof (fetch_output_runs params m) as H. cbv zeta in H. rewrite H.
  destruct (getTask m _); [destruct (getOutput m _ _);
    [destruct (truthy _); [destruct (newRegExp _)|]|]|]; eexists; reflexivity.
Qed.

End FetchOutputShape.

Section FetchOutputFailures.
Context {M : Type} {TM : TaskManager M} {RE : RegExpEngine}.

(** X2.  When the task exists but its output cannot be retrieved,
    fetch-output reports the failed read, a result of its own kind.  It
    does so before looking at the filter: the filter is not compiled, so
    even an invalid one goes unreported. *)
Theorem read_failure_precedes_filter (params : BashOutput.BashOutputParams) (m : M)
    (task : Task) :
  getTask m (BashOutput.bash_id params) = Some task ->
  getOutput m (BashOutput.bash_id params) 0 = None ->
  BashOutput.execute params m =
  {| outcome := Returns
       {| llmContent := "Failed to retrieve output for task "
                        +:+ tpl (BashOutput.bash_id params) +:+ ".";
          returnDisplay := "Error: Failed to retrieve output." |};
     manager := m;
     calls := [CallGetTask (BashOutput.bash_id params);
               CallGetOutput (BashOutput.bash_id params) 0] |}
  /\ (forall pattern, ~ In (CallNewRegExp pattern) (calls (BashOutput.execute params m)))
  /\ (forall r, outcome (BashOutput.execute params m) = Returns r ->
                startsWith (llmContent r) "Background task not found: " = false
                /\ startsWith (llmContent r) "Invalid filter regex: " = false
                /\ startsWith (llmContent r) "Status: " = false).
Proof.
  intros Ht Ho.
  pose proof (fetch_output_runs params m) as H. cbv zeta in H.
  rewrite Ht, Ho in H. rewrite H. split; [reflexivity|]. split.
  - intros pattern Hin. cbn in Hin. intuition discriminate.
  - intros r Hr. cbn [outcome] in Hr. injection Hr as <-. cbn [llmContent].
    split; [reflexivity|]. split; reflexivity.
Qed.

(** X3.  Once task and output are there, the lines shown are a
    subsequence of the buffer, or the filter is reported invalid: the
    filter step only drops lines, so the matched count never exceeds the
    buffered count, and the two are equal only if every line is shown. *)
Theorem shown_lines_come_from_buffer (params : BashOutput.BashOutputParams) (m : M)
    (task : Task) (buffered : list string) :
  getTask m (BashOutput.bash_id params) = Some task ->
  getOutput m (BashOutput.bash_id params) 0 = Some buffered ->
  (exists shown,
      outcome (BashOutput.execute params m)
      = Returns (report (report_lines task (BashOutput.filter params) buffered shown) shown)
      /\ shown `sublist_of` buffered
      /\ (length shown <= length buffered)%nat
      /\ (length shown = length buffered -> shown = buffered))
  \/ (exists f error,
         truthy (BashOutput.filter params) = Some f
         /\ newRegExp f = Throws error
         /\ outcome (BashOutput.execute params m)
            = Returns {| llmContent := "Invalid filter regex: " +:+ f +:+ ". Error: "
                                       +:+ message error;
                         returnDisplay := "Error: Invalid filter pattern." |}).
Proof.
  intros Ht Ho.
  pose proof (fetch_output_runs params m) as H. cbv zeta in H.
  rewrite Ht, Ho in H. rewrite H. clear H.
  destruct (truthy (BashOutput.filter params)) as [f|] eqn:Hf.
  - destruct (newRegExp f) as [regex|error] eqn:He.
    + left. exists (List.filter (test regex) buffered). cbn [outcome].
      rewrite format_report.
      pose proof (kept_lines_sublist (test regex) buffered) as Hs.
      split; [reflexivity|]. split; [exact Hs|]. split.
      * apply sublist_length. exact Hs.
      * apply sublist_full_length. exact Hs.
    + right. exists f, error. split; [reflexivity|]. split; [exact He | reflexivity].
  - left. exists buffered. cbn [outcome]. rewrite format_report.
    split; [reflexivity|]. split; [reflexivity|]. split; [lia | reflexivity].
Qed.

(** X4.  An empty buffer is a success, not a failed read: with a filter
    that is missing, empty or compiling, the report counts 0 buffered
    lines (and 0 matched lines under a non-empty filter) and shows no
    output, whatever the pattern is. *)
Theorem empty_buffer_is_reported (params : BashOutput.BashOutputParams) (m : M)
    (task : Task) :
  getTask m (BashOutput.bash_id params) = Some task ->
  getOutput m (BashOutput.bash_id params) 0 = Some [] ->
  (forall f error, truthy (BashOutput.filter params) = Some f -> newRegExp f <> Throws error) ->
  let lines :=
    (["Status: " +:+ task_status task] ++ pid_line task ++ ["Lines buffered: 0"]
     ++ match truthy (BashOutput.filter params) with
        | Some _ => ["Matched lines: 0"]
        | None => []
        end)%list in
  outcome (BashOutput.execute params m)
  = Returns {| llmContent := join nl [join nl lines; ""; "Output:"; ""];
               returnDisplay := join " | " lines +:+ nl |}.
Proof.
  intros Ht Ho Hok lines. subst lines.
  pose proof (fetch_output_runs params m) as H. cbv zeta in H.
  rewrite Ht, Ho in H. rewrite H. clear H.
  destruct (BashOutput.filter params) as [[|c f]|] eqn:Hf; cbn [truthy] in *.
  - cbn [outcome]. rewrite format_report, Hf. reflexivity.
  - destruct (newRegExp (String c f)) as [regex|error] eqn:He.
    + cbn [outcome]. rewrite format_report, Hf. reflexivity.
    + exfalso. exact (Hok _ error eq_refl He).
  - cbn [outcome]. rewrite format_report, Hf. reflexivity.
Qed.

(** X5.  The description and the run agree on the filter: on a task that
    is found and read, the description mentions the filter exactly when
    [execute] compiles it, that is, exactly when the filter is a non-empty
    string; an empty filter is described like a missing one. *)
Theorem description_mentions_applied_filter (params : BashOutput.BashOutputParams) (m : M)
    (task : Task) (buffered : list string) :
  getTask m (BashOutput.bash_id params) = Some task ->
  getOutput m (BashOutput.bash_id params) 0 = Some buffered ->
  let base := "Get output from background task: " +:+ tpl (BashOutput.bash_id params) in
  (forall f, truthy (BashOutput.filter params) = Some f ->
             BashOutput.getDescription params = base +:+ " (filter: " +:+ f +:+ ")"
             /\ In (CallNewRegExp f) (calls (BashOutput.execute params m)))
  /\ (truthy (BashOutput.filter params) = None ->
      BashOutput.getDescription params = base
      /\ forall f, ~ In (CallNewRegExp f) (calls (BashOutput.execute params m)))
  /\ (BashOutput.getDescription params = base
      <-> forall f, ~ In (CallNewRegExp f) (calls (BashOutput.execute params m))).
Proof.
  intros Ht Ho base. subst base.
  pose proof (fetch_output_runs params m) as H. cbv zeta in H.
  rewrite Ht, Ho in H. rewrite H. clear H.
  unfold BashOutput.getDescription.
  destruct (truthy (BashOutput.filter params)) as [f|] eqn:Hf.
  - assert (Hcalls : In (CallNewRegExp f)
                        [CallGetTask (BashOutput.bash_id params);
                         CallGetOutput (BashOutput.bash_id params) 0; CallNewRegExp f]).
    { cbn. auto. }
    assert (Hlong : "Get output from background task: " +:+ tpl (BashOutput.bash_id params)
                    +:+ " (filter: " +:+ f +:+ ")"
                    <> "Get output from background task: "
                       +:+ tpl (BashOutput.bash_id params)).
    { intros Heq. rewrite <- !append_assoc in Heq.
      rewrite <- (append_empty_r ("Get output from background task: "
                                  +:+ tpl (BashOutput.bash_id params))) in Heq at 2.
      rewrite !append_assoc in Heq. do 2 apply append_cancel_l in Heq. discriminate. }
    destruct (newRegExp f) as [regex|error]; cbn [calls];
      (split; [|split]);
      [ intros f0 Hf0; injection Hf0 as <-; rewrite append_assoc; split; [reflexivity|exact Hcalls]
      | discriminate
      | split; [intros Heq; rewrite append_assoc in Heq; contradiction
               | intros Hno; exfalso; exact (Hno f Hcalls)]
      | intros f0 Hf0; injection Hf0 as <-; rewrite append_assoc; split; [reflexivity|exact Hcalls]
      | discriminate
      | split; [intros Heq; rewrite append_assoc in Heq; contradiction
               | intros Hno; exfalso; exact (Hno f Hcalls)] ].
  - split; [|split].
    + discriminate.
    + intros _. split; [reflexivity|]. intros f Hin. cbn in Hin. intuition discriminate.
    + split; [|reflexivity]. intros _ f Hin. cbn in Hin. intuition discriminate.
Qed.

End FetchOutputFailures.

(** ** Terminate: the kill, its failure and the confirmation *)

Section TerminateFurther.
Context {M : Type} {TM : TaskManager M} {EU : ErrorUtils}.

(** X6.  When [killTask] throws on a running task, terminate catches the
    error and returns an ordinary result that carries the error's message;
    the manager is left in the state the failed kill left it in. *)
Theorem terminate_reports_thrown_kill (params : KillShell.KillShellParams) (m m' : M)
    (task : Task) (error : JsError) :
  getTask m (KillShell.shell_id params) = Some task ->
  task_status task = "running" ->
  killTask m (KillShell.shell_id params) = (Throws error, m') ->
  KillShell.execute params m =
  {| outcome := Returns
       {| llmContent := "Error terminating background task "
                        +:+ tpl (KillShell.shell_id params) +:+ ": "
                        +:+ getErrorMessage error;
          returnDisplay := "Error: " +:+ getErrorMessage error |};
     manager := m';
     calls := [CallGetTask (KillShell.shell_id params);
               CallKillTask (KillShell.shell_id params)] |}.
Proof.
  intros Ht Hs Hk.
  pose proof (terminate_runs params m) as H. cbv zeta in H.
  rewrite Ht, Hs, Hk in H. exact H.
Qed.

(** X7.  Terminate kills only what runs: it calls [killTask] exactly when
    the task exists with status [running], with the identifier it was
    given and at most once; otherwise the lookup is its only call and the
    manager's state is unchanged.  It never reads output. *)
Theorem terminate_kills_only_running (params : KillShell.KillShellParams) (m : M) :
  let id := KillShell.shell_id params in
  let run := KillShell.execute params m in
  (calls run = [CallGetTask id; CallKillTask id]
   <-> exists task, getTask m id = Some task /\ task_status task = "running")
  /\ (calls run = [CallGetTask id]
      <-> ~ exists task, getTask m id = Some task /\ task_status task = "running")
  /\ (calls run = [CallGetTask id] -> manager run = m)
  /\ (calls run = [CallGetTask id; CallKillTask id] -> manager run = snd (killTask m id))
  /\ (calls run = [CallGetTask id] \/ calls run = [CallGetTask id; CallKillTask id]).
Proof.
  cbv zeta.
  pose proof (terminate_runs params m) as H. cbv zeta in H. rewrite H. clear H.
  destruct (getTask m (KillShell.shell_id params)) as [task|] eqn:Ht.
  - destruct (String.eqb (task_status task) "running") eqn:Hs.
    + apply String.eqb_eq in Hs. cbn [manager calls].
      split; [split; [intros _; exists task; split; [reflexivity | exact Hs] | reflexivity]|].
      split; [split; [discriminate | intros Hn; exfalso; apply Hn; eauto]|].
      split; [discriminate|]. split; [reflexivity | right; reflexivity].
    + apply String.eqb_neq in Hs. cbn [manager calls].
      assert (Hn : ~ exists t, Some task = Some t /\ task_status t = "running").
      { intros (t & Heq & Hr). injection Heq as <-. contradiction. }
      split; [split; [discriminate | intros Hex; contradiction]|].
      split; [split; [intros _; exact Hn | reflexivity]|].
      split; [reflexivity|]. split; [discriminate | left; reflexivity].
  - cbn [manager calls].
    assert (Hn : ~ exists t, @None Task = Some t /\ task_status t = "running").
    { intros (t & Heq & _). discriminate. }
    split; [split; [discriminate | intros Hex; contradiction]|].
    split; [split; [intros _; exact Hn | reflexivity]|].
    split; [reflexivity|]. split; [discriminate | left; reflexivity].
Qed.

(** X8.  Confirmation goes by existence, not by status: it is requested
    exactly when the lookup finds the task, after that one call and without
    changing the manager.  So a task that is no longer running is still
    confirmed, although [execute] will then not kill it; and confirmation
    is requested exactly when [execute] does not answer "not found". *)
Theorem confirmation_follows_lookup (params : KillShell.KillShellParams) (m : M) :
  let id := KillShell.shell_id params in
  let asked := KillShell.getConfirmationDetails params m in
  manager asked = m
  /\ calls asked = [CallGetTask id]
  /\ ((exists details, outcome asked = Returns (Some details))
      <-> exists task, getTask m id = Some task)
  /\ (forall task, getTask m id = Some task -> task_status task <> "running" ->
        (exists details, outcome asked = Returns (Some details)
                         /\ command details = task_command task)
        /\ calls (KillShell.execute params m) = [CallGetTask id])
  /\ (forall r, outcome (KillShell.execute params m) = Returns r ->
        (startsWith (llmContent r) "Background task not found: " = false
         <-> exists details, outcome asked = Returns (Some details))).
Proof.
  cbv zeta. rewrite terminate_confirmation. cbn [manager calls outcome].
  pose proof (terminate_runs params m) as H. cbv zeta in H. rewrite H. clear H.
  split; [reflexivity|]. split; [reflexivity|].
  destruct (getTask m (KillShell.shell_id params)) as [task|] eqn:Ht.
  - split; [split; intros _; eexists; reflexivity|]. split.
    + intros t Heq Hs. injection Heq as <-. apply String.eqb_neq in Hs. rewrite Hs.
      split; [eexists; split; reflexivity | reflexivity].
    + intros r Hr. split; [intros _; eexists; reflexivity|]. intros _.
      destruct (String.eqb (task_status task) "running");
        [destruct (fst (killTask m (KillShell.shell_id params))) as [[|]|error]|];
        cbn [outcome] in Hr; injection Hr as <-; reflexivity.
  - split; [split; intros [x Hx]; discriminate|]. split.
    + intros t Heq. discriminate.
    + intros r Hr. cbn [outcome] in Hr. injection Hr as <-. cbn [llmContent].
      split; [intros Hx; cbv in Hx; discriminate | intros [x Hx]; discriminate].
Qed.

(** X9.  Validated terminate requests are told apart by their
    descriptions: two parameter objects that pass validation and are
    described alike name the same task. *)
Theorem terminate_description_determines_id (p q : KillShell.KillShellParams) :
  KillShell.validateToolParamValues p = None ->
  KillShell.validateToolParamValues q = None ->
  KillShell.getDescription p = KillShell.getDescription q ->
  p = q.
Proof.
  unfold KillShell.validateToolParamValues, KillShell.getDescription.
  destruct p as [[[|c s]|]], q as [[[|c' s']|]]; cbn [KillShell.shell_id truthy tpl];
    intros Hp Hq Hd; try discriminate.
  apply append_cancel_l in Hd. rewrite Hd. reflexivity.
Qed.

End TerminateFurther.

(** ** Both operations: messages and validated identifiers *)

Section BothOperationsFurther.
Context {M : Type} {TM : TaskManager M} {RE : RegExpEngine} {EU : ErrorUtils}.

(** X10.  A "not found" result names one identifier: two lookups that
    both fail and yield the same result were made for identifiers that
    print alike, for fetch-output and for terminate. *)
Theorem not_found_result_names_the_id :
  (forall (p q : BashOutput.BashOutputParams) (m m' : M),
      getTask m (BashOutput.bash_id p) = None ->
      getTask m' (BashOutput.bash_id q) = None ->
      outcome (BashOutput.execute p m) = outcome (BashOutput.execute q m') ->
      tpl (BashOutput.bash_id p) = tpl (BashOutput.bash_id q))
  /\ (forall (p q : KillShell.KillShellParams) (m m' : M),
      getTask m (KillShell.shell_id p) = None ->
      getTask m' (KillShell.shell_id q) = None ->
      outcome (KillShell.execute p m) = outcome (KillShell.execute q m') ->
      tpl (KillShell.shell_id p) = tpl (KillShell.shell_id q)).
Proof.
  split.
  - intros p q m m' Hp Hq.
    pose proof (fetch_output_runs p m) as H1. cbv zeta in H1. rewrite Hp in H1.
    pose proof (fetch_output_runs q m') as H2. cbv zeta in H2. rewrite Hq in H2.
    rewrite H1, H2. cbn [outcome]. intros Heq. injection Heq as Hl _.
    apply append_cancel_l in Hl. apply append_cancel_r in Hl. exact Hl.
  - intros p q m m' Hp Hq.
    pose proof (terminate_runs p m) as H1. cbv zeta in H1. rewrite Hp in H1.
    pose proof (terminate_runs q m') as H2. cbv zeta in H2. rewrite Hq in H2.
    rewrite H1, H2. cbn [outcome]. intros Heq. injection Heq as Hl _.
    apply append_cancel_l in Hl. apply append_cancel_r in Hl. exact Hl.
Qed.

(** X11.  Validation reports the identifier first.  A blank [bash_id] is
    answered with the identifier's message whatever the filter is, so an
    invalid filter is reported only for a usable identifier; and the only
    messages validation ever gives are the identifier's and the invalid
    pattern's. *)
Theorem validation_reports_id_first :
  (forall params : BashOutput.BashOutputParams,
      blank (BashOutput.bash_id params) ->
      BashOutput.validateToolParamValues params
      = Some "bash_id is required and cannot be empty.")
  /\ (forall (params : BashOutput.BashOutputParams) (msg : string),
      BashOutput.validateToolParamValues params = Some msg ->
      (msg = "bash_id is required and cannot be empty." /\ blank (BashOutput.bash_id params))
      \/ (exists f error, ~ blank (BashOutput.bash_id params)
                          /\ truthy (BashOutput.filter params) = Some f
                          /\ newRegExp f = Throws error
                          /\ msg = "Invalid regex pattern in filter: " +:+ message error))
  /\ (forall (params : KillShell.KillShellParams) (msg : string),
      KillShell.validateToolParamValues params = Some msg ->
      msg = "shell_id is required and cannot be empty." /\ blank (KillShell.shell_id params)).
Proof.
  split; [|split].
  - intros params Hb. unfold BashOutput.validateToolParamValues.
    apply rejected_iff_blank in Hb. rewrite Hb. reflexivity.
  - intros params msg. unfold BashOutput.validateToolParamValues.
    pose proof (rejected_iff_blank (BashOutput.bash_id params)) as Hb.
    destruct (match truthy (BashOutput.bash_id params) with
              | Some id => (String.length (trim id) =? 0)%nat
              | None => true
              end).
    + intros Hm. injection Hm as <-. left. split; [reflexivity | apply Hb; reflexivity].
    + assert (Hnb : ~ blank (BashOutput.bash_id params)).
      { intros Hbl. apply Hb in Hbl. discriminate. }
      destruct (truthy (BashOutput.filter params)) as [f|]; [|discriminate].
      destruct (newRegExp f) as [regex|error] eqn:He; [discriminate|].
      intros Hm. injection Hm as <-. right. exists f, error.
      split; [exact Hnb|]. split; [reflexivity|]. split; [exact He | reflexivity].
  - intros params msg. unfold KillShell.validateToolParamValues.
    pose proof (rejected_iff_blank (KillShell.shell_id params)) as Hb.
    destruct (match truthy (KillShell.shell_id params) with
              | Some id => (String.length (trim id) =? 0)%nat
              | None => true
              end); [|discriminate].
    intros Hm. injection Hm as <-. split; [reflexivity | apply Hb; reflexivity].
Qed.

(** X12.  Validation trims the identifier only to test it: parameters
    that pass carry an identifier with a character that is not white
    space, and fetch-output looks up that identifier as given, untrimmed. *)
Theorem validated_id_is_looked_up_as_given (params : BashOutput.BashOutputParams) (m : M) :
  BashOutput.validateToolParamValues params = None ->
  exists s rest,
    BashOutput.bash_id params = Some s
    /\ whitespace_only s = false
    /\ calls (BashOutput.execute params m) = CallGetTask (Some s) :: rest.
Proof.
  intros Hv.
  assert (Hnb : ~ blank (BashOutput.bash_id params)).
  { intros Hb. unfold BashOutput.validateToolParamValues in Hv.
    apply rejected_iff_blank in Hb. rewrite Hb in Hv. discriminate. }
  destruct (BashOutput.bash_id params) as [s|] eqn:Hid.
  2:{ exfalso. apply Hnb. left. reflexivity. }
  assert (Hws : whitespace_only s = false).
  { destruct (whitespace_only s) eqn:Hw; [|reflexivity].
    exfalso. apply Hnb. right; right. exists s. split; [reflexivity | exact Hw]. }
  pose proof (fetch_output_call_shape params m) as Hc. rewrite Hid in Hc.
  destruct Hc as [rest Hc]. exists s, rest. split; [reflexivity|]. split; assumption.
Qed.

End BothOperationsFurther.

(** ** The further properties on concrete runs *)

(** X2 on the failing manager: the read fails, and the invalid pattern
    [(] is never looked at. *)
Lemma read_failure_precedes_filter_witness :
  BashOutput.execute (TM := Stub.failing_manager) (RE := BasicRegExp.engine)
    {| BashOutput.bash_id := Some "bg_1"; BashOutput.filter := Some "(" |} tt =
  {| outcome := Returns
       {| llmContent := "Failed to retrieve output for task bg_1.";
          returnDisplay := "Error: Failed to retrieve output." |};
     manager := tt;
     calls := [CallGetTask (Some "bg_1"); CallGetOutput (Some "bg_1") 0] |}.
Proof.
  refine (proj1 (read_failure_precedes_filter
                   (TM := Stub.failing_manager) (RE := BasicRegExp.engine)
                   {| BashOutput.bash_id := Some "bg_1"; BashOutput.filter := Some "(" |}
                   tt Examples.dev_server _ _));
    reflexivity.
Defined.

(** X3 on [bg_1]: the pattern [^g] shows one of the three lines. *)
Lemma shown_lines_come_from_buffer_witness :
  (exists shown,
      outcome (Examples.fetch (Some "bg_1") (Some "^g"))
      = Returns (report (report_lines Examples.dev_server (Some "^g")
                           ["alpha"; "beta"; "gamma"] shown) shown)
      /\ shown `sublist_of` ["alpha"; "beta"; "gamma"]
      /\ (length shown <= 3)%nat
      /\ (length shown = 3%nat -> shown = ["alpha"; "beta"; "gamma"]))
  \/ (exists f error,
         truthy (Some "^g") = Some f
         /\ newRegExp (RegExpEngine := BasicRegExp.engine) f = Throws error
         /\ outcome (Examples.fetch (Some "bg_1") (Some "^g"))
            = Returns {| llmContent := "Invalid filter regex: " +:+ f +:+ ". Error: "
                                       +:+ message error;
                         returnDisplay := "Error: Invalid filter pattern." |}).
Proof.
  refine (shown_lines_come_from_buffer
            (TM := Reference.task_manager) (RE := BasicRegExp.engine)
            {| BashOutput.bash_id := Some "bg_1"; BashOutput.filter := Some "^g" |}
            Examples.state Examples.dev_server ["alpha"; "beta"; "gamma"] _ _);
    reflexivity.
Defined.

(** X4 on [bg_4], whose buffer is empty, under the filter [x]. *)
Lemma empty_buffer_is_reported_witness :
  outcome (Examples.fetch (Some "bg_4") (Some "x"))
  = Returns
      {| llmContent :=
           join nl [join nl ["Status: running"; "PID: 4245"; "Lines buffered: 0";
                             "Matched lines: 0"];
                    ""; "Output:"; ""];
         returnDisplay :=
           join " | " ["Status: running"; "PID: 4245"; "Lines buffered: 0";
                       "Matched lines: 0"] +:+ nl |}.
Proof.
  refine (empty_buffer_is_reported
            (TM := Reference.task_manager) (RE := BasicRegExp.engine)
            {| BashOutput.bash_id := Some "bg_4"; BashOutput.filter := Some "x" |}
            Examples.state Examples.vanished _ _ _);
    try reflexivity.
  intros f error Hf He. injection Hf as <-. vm_compute in He. discriminate.
Defined.

(** X5 on [bg_1] under the filter [a$]. *)
Lemma description_mentions_applied_filter_witness :
  BashOutput.getDescription
    {| BashOutput.bash_id := Some "bg_1"; BashOutput.filter := Some "a$" |}
  = "Get output from background task: bg_1 (filter: a$)"
  /\ In (CallNewRegExp "a$") (calls (Examples.fetch (Some "bg_1") (Some "a$"))).
Proof.
  refine (proj1 (description_mentions_applied_filter
                   (TM := Reference.task_manager) (RE := BasicRegExp.engine)
                   {| BashOutput.bash_id := Some "bg_1"; BashOutput.filter := Some "a$" |}
                   Examples.state Examples.dev_server ["alpha"; "beta"; "gamma"] _ _)
                "a$" _);
    reflexivity.
Defined.

(** X6 on the failing manager: the rejected kill is reported. *)
Lemma terminate_reports_thrown_kill_witness :
  KillShell.execute (TM := Stub.failing_manager) (EU := Reference.errors)
    {| KillShell.shell_id := Some "bg_1" |} tt =
  {| outcome := Returns
       {| llmContent := "Error terminating background task bg_1: kill EPERM";
          returnDisplay := "Error: kill EPERM" |};
     manager := tt;
     calls := [CallGetTask (Some "bg_1"); CallKillTask (Some "bg_1")] |}.
Proof.
  refine (terminate_reports_thrown_kill
            (TM := Stub.failing_manager) (EU := Reference.errors)
            {| KillShell.shell_id := Some "bg_1" |} tt tt Examples.dev_server
            Stub.rejection _ _ _);
    reflexivity.
Defined.

(** X8 on [bg_2], a completed task: confirmation is requested for its
    command, and [execute] then only looks it up. *)
Lemma confirmation_follows_lookup_witness :
  (exists details,
      outcome (KillShell.getConfirmationDetails (TM := Reference.task_manager)
                 {| KillShell.shell_id := Some "bg_2" |} Examples.state)
      = Returns (Some details)
      /\ command details = "make all")
  /\ calls (Examples.terminate (Some "bg_2")) = [CallGetTask (Some "bg_2")].
Proof.
  refine (proj1 (proj2 (proj2 (proj2
            (confirmation_follows_lookup
               (TM := Reference.task_manager) (EU := Reference.errors)
               {| KillShell.shell_id := Some "bg_2" |} Examples.state))))
            Examples.finished_build _ _);
    [reflexivity | discriminate].
Defined.

(** X9 on [bg_1] and [bg_2]: different tasks, different descriptions. *)
Lemma terminate_description_determines_id_witness :
  KillShell.getDescription {| KillShell.shell_id := Some "bg_1" |}
  <> KillShell.getDescription {| KillShell.shell_id := Some "bg_2" |}.
Proof.
  intros Heq.
  pose proof (terminate_description_determines_id
                {| KillShell.shell_id := Some "bg_1" |}
                {| KillShell.shell_id := Some "bg_2" |} eq_refl eq_refl Heq) as H.
  discriminate H.
Defined.

(** X10 on the unknown identifiers [bg_8] and [bg_9]: their results
    differ. *)
Lemma not_found_result_names_the_id_witness :
  outcome (Examples.fetch (Some "bg_8") None) <> outcome (Examples.fetch (Some "bg_9") None).
Proof.
  intros Heq.
  pose proof (proj1 (not_found_result_names_the_id
                       (TM := Reference.task_manager) (RE := BasicRegExp.engine)
                       (EU := Reference.errors))
                    {| BashOutput.bash_id := Some "bg_8"; BashOutput.filter := None |}
                    {| BashOutput.bash_id := Some "bg_9"; BashOutput.filter := None |}
                    Examples.state Examples.state eq_refl eq_refl Heq) as H.
  discriminate H.
Defined.

(** X12 on the padded identifier [ bg_1 ]: it validates, is looked up
    with its blanks, and so is not found although [bg_1] exists. *)
Lemma validated_id_is_looked_up_as_given_witness :
  (exists s rest,
      Some " bg_1 " = Some s
      /\ whitespace_only s = false
      /\ calls (Examples.fetch (Some " bg_1 ") None) = CallGetTask (Some s) :: rest)
  /\ trim " bg_1 " = "bg_1"
  /\ getTask (TaskManager := Reference.task_manager) Examples.state (Some "bg_1")
     = Some Examples.dev_server
  /\ outcome (Examples.fetch (Some " bg_1 ") None)
     = Returns {| llmContent := "Background task not found:  bg_1 . "
                                +:+ "Task may have been cleaned up.";
                  returnDisplay := "Error: Task  bg_1  not found." |}.
Proof.
  split; [|split; [reflexivity | split; reflexivity]].
  refine (validated_id_is_looked_up_as_given
            (TM := Reference.task_manager) (RE := BasicRegExp.engine)
            {| BashOutput.bash_id := Some " bg_1 "; BashOutput.filter := None |}
            Examples.state _).
  reflexivity.
Defined.
